(** * AES events scraper: the fetch-normalize-aggregate pipeline of [main.py]

    A shallow embedding of [src/main.py].  Python values that come out of
    [json.loads] are the inductive type [json]; a function that can raise
    returns a [result]; a function that talks to the network runs in the
    small [Fetch] monad, which records every URL it requests; the two
    phases of [AESScraper.run] are loops over the futures in the order in
    which [as_completed] hands them out. *)

From Stdlib Require Import ZArith List String Ascii Bool Lia Permutation.
From Stdlib Require Import DecimalString.
From Stdlib Require Import Floats.SpecFloat.
Import ListNotations.

Local Open Scope list_scope.
Local Open Scope string_scope.

(** ** Python strings

    A [str] is modelled as a [string] whose characters are the code points
    0..255. *)

Module Str.

Definition code (c : ascii) : nat := nat_of_ascii c.

Definition in_range (lo hi : nat) (c : ascii) : bool :=
  Nat.leb lo (code c) && Nat.leb (code c) hi.

(** [str.isspace] on one character (code points below 256). *)
Definition isspace (c : ascii) : bool :=
  in_range 9 13 c || in_range 28 32 c
  || Nat.eqb (code c) 133 || Nat.eqb (code c) 160.

Definition isdigit (c : ascii) : bool := in_range 48 57 c.

Definition digit_val (c : ascii) : Z := Z.of_nat (code c) - 48.

Fixpoint lstrip_by (p : ascii -> bool) (s : string) : string :=
  match s with
  | EmptyString => EmptyString
  | String c s' => if p c then lstrip_by p s' else s
  end.

Fixpoint rstrip_by (p : ascii -> bool) (s : string) : string :=
  match s with
  | EmptyString => EmptyString
  | String c s' =>
      match rstrip_by p s' with
      | EmptyString => if p c then EmptyString else String c EmptyString
      | r => String c r
      end
  end.

Fixpoint mem (c : ascii) (chars : string) : bool :=
  match chars with
  | EmptyString => false
  | String d chars' => Ascii.eqb c d || mem c chars'
  end.

(** [s.strip()] *)
Definition strip (s : string) : string :=
  rstrip_by isspace (lstrip_by isspace s).

(** [s.rstrip(chars)]: [chars] is a set of characters, not a suffix. *)
Definition rstrip (chars : string) (s : string) : string :=
  rstrip_by (fun c => mem c chars) s.

(** [s.replace(old, new)] for a one-character [old]. *)
Fixpoint replace (old : ascii) (new : string) (s : string) : string :=
  match s with
  | EmptyString => EmptyString
  | String c s' =>
      if Ascii.eqb c old then new ++ replace old new s'
      else String c (replace old new s')
  end.

(** [s[:n]] *)
Fixpoint take (n : nat) (s : string) : string :=
  match n, s with
  | O, _ => EmptyString
  | S _, EmptyString => EmptyString
  | S n', String c s' => String c (take n' s')
  end.

(** [s[n:]] *)
Fixpoint drop (n : nat) (s : string) : string :=
  match n, s with
  | O, _ => s
  | S _, EmptyString => EmptyString
  | S n', String _ s' => drop n' s'
  end.

Fixpoint last (s : string) : option ascii :=
  match s with
  | EmptyString => None
  | String c EmptyString => Some c
  | String _ s' => last s'
  end.

Fixpoint join (sep : string) (l : list string) : string :=
  match l with
  | [] => EmptyString
  | [x] => x
  | x :: l' => x ++ sep ++ join sep l'
  end.

Fixpoint chars (s : string) : list string :=
  match s with
  | EmptyString => []
  | String c s' => String c EmptyString :: chars s'
  end.

Fixpoint all (p : ascii -> bool) (s : string) : bool :=
  match s with
  | EmptyString => true
  | String c s' => p c && all p s'
  end.

(** Decimal text of an integer: [str(n)] for an [int]. *)
Definition of_Z (z : Z) : string := NilZero.string_of_int (Z.to_int z).

(** The value of a run of decimal digits (the caller checks [all isdigit]). *)
Fixpoint digits_val (acc : Z) (s : string) : Z :=
  match s with
  | EmptyString => acc
  | String c s' => digits_val (10 * acc + digit_val c) s'
  end.

Definition hex_digit (n : nat) : ascii :=
  ascii_of_nat (if Nat.ltb n 10 then 48 + n else 87 + n).

(** Two lowercase hexadecimal digits of a character code. *)
Definition hex2 (c : ascii) : string :=
  String (hex_digit (Nat.div (code c) 16))
    (String (hex_digit (Nat.modulo (code c) 16)) EmptyString).

Fixpoint zeros (n : nat) : string :=
  match n with
  | O => EmptyString
  | S n' => String "0" (zeros n')
  end.

(** [s.zfill(width)] for an unsigned digit string. *)
Definition zfill (width : nat) (s : string) : string :=
  zeros (width - String.length s) ++ s.


(** [s.lower()] on one character (code points below 256). *)
Definition lower_char (c : ascii) : ascii :=
  if in_range 65 90 c
     || (in_range 192 222 c && negb (Nat.eqb (code c) 215))
  then ascii_of_nat (code c + 32) else c.

(** [s.lower()] *)
Fixpoint lower (s : string) : string :=
  match s with
  | EmptyString => EmptyString
  | String c s' => String (lower_char c) (lower s')
  end.

End Str.

(** ** Python floats

    A [float] is a binary64 value, written [S754_finite s m e] for
    [(-1)^s * m * 2^e].  [repr] prints the shortest decimal that reads back
    as the same double, and the nearest such decimal when several have that
    length. *)

Module Flt.

Local Open Scope Z_scope.

(** The canonical mantissa and exponent of a binary64 value: 53 bits, or
    fewer at the least exponent -1074.  The shift is exact on a double. *)
Definition canon (m : positive) (e : Z) : Z * Z :=
  let k := Z.min (52 - Z.log2 (Zpos m)) (e + 1074) in
  (Z.shiftl (Zpos m) k, e - k).

(** [cmp10 c k num den] compares [c * 10^k] with [num / den]. *)
Definition cmp10 (c k num den : Z) : comparison :=
  if 0 <=? k then (c * 10 ^ k * den ?= num)
  else (c * den ?= num * 10 ^ (- k)).

(** [floor10 k num den] is the floor of [num / den / 10^k]. *)
Definition floor10 (k num den : Z) : Z :=
  if 0 <=? k then num / (den * 10 ^ k) else (num * 10 ^ (- k)) / den.

(** The decimal exponent [x] with [10^x <= num / den < 10^(x+1)]. *)
Fixpoint exp10_from (fuel : nat) (x num den : Z) : Z :=
  match fuel with
  | O => x
  | S fuel' =>
      match cmp10 1 (x + 1) num den with
      | Gt => x
      | _ => exp10_from fuel' (x + 1) num den
      end
  end.

Definition exp10 (num den : Z) : Z :=
  exp10_from 8 (((Z.log2 num - Z.log2 den) * 30103) / 100000 - 2) num den.

Definition inside (closed : bool) (c k lo hi den : Z) : bool :=
  match cmp10 c k lo den, cmp10 c k hi den with
  | Gt, Lt => true
  | Eq, _ | _, Eq => closed
  | _, _ => false
  end.

(** The [n]-digit decimals next to [x/den], the nearer one first. *)
Definition candidates (n x den : Z) : Z * Z * Z :=
  let k := exp10 x den - n + 1 in
  let d := floor10 k x den in
  match cmp10 (2 * d + 1) k (2 * x) den with
  | Lt => (k, d + 1, d)
  | Gt => (k, d, d + 1)
  | Eq => if Z.even d then (k, d, d + 1) else (k, d + 1, d)
  end.

Fixpoint shortest (fuel : nat) (n : Z) (closed : bool) (x lo hi den : Z)
  : Z * Z :=
  let '(k, c1, c2) := candidates n x den in
  match fuel with
  | O => (c1, k)
  | S fuel' =>
      if inside closed c1 k lo hi den then (c1, k)
      else if inside closed c2 k lo hi den then (c2, k)
      else shortest fuel' (n + 1) closed x lo hi den
  end.

Fixpoint strip_zeros (fuel : nat) (d k : Z) : Z * Z :=
  match fuel with
  | O => (d, k)
  | S fuel' =>
      if (d mod 10 =? 0) && negb (d =? 0) then strip_zeros fuel' (d / 10) (k + 1)
      else (d, k)
  end.

(** Digits and decimal point of a positive double: the value is
    [0.DIGITS * 10^decpt]. *)
Definition digits (m : positive) (e : Z) : string * Z :=
  let '(m', e') := canon m e in
  let E := e' - 2 in
  let s := 2 ^ Z.max 0 E in
  let den := 2 ^ Z.max 0 (- E) in
  let x := 4 * m' * s in
  let hi := (4 * m' + 2) * s in
  let lo := (if (m' =? 2 ^ 52) && (-1074 <? e') then 4 * m' - 1
             else 4 * m' - 2) * s in
  let '(d, k) := shortest 17 1 (Z.even m') x lo hi den in
  let '(d, k) := strip_zeros 20 d k in
  let ds := Str.of_Z d in
  (ds, Z.of_nat (String.length ds) + k).

Definition exponent_text (x : Z) : string :=
  (if x <? 0 then "-" else "+") ++ Str.zfill 2 (Str.of_Z (Z.abs x)).

Definition format_digits (ds : string) (decpt : Z) : string :=
  let nd := Z.of_nat (String.length ds) in
  if (decpt <=? -4) || (16 <? decpt) then
    Str.take 1 ds
    ++ (if 1 <? nd then "." ++ Str.drop 1 ds else "")
    ++ "e" ++ exponent_text (decpt - 1)
  else if decpt <=? 0 then
    "0." ++ Str.zeros (Z.to_nat (- decpt)) ++ ds
  else if nd <=? decpt then
    ds ++ Str.zeros (Z.to_nat (decpt - nd)) ++ ".0"
  else
    Str.take (Z.to_nat decpt) ds ++ "." ++ Str.drop (Z.to_nat decpt) ds.

Definition sign_text (s : bool) : string := if s then "-" else "".

(** [repr(x)], which is also [str(x)] and [format(x, "")]. *)
Definition repr (f : spec_float) : string :=
  match f with
  | S754_zero s => sign_text s ++ "0.0"
  | S754_infinity s => sign_text s ++ "inf"
  | S754_nan => "nan"
  | S754_finite s m e =>
      let '(ds, decpt) := digits m e in sign_text s ++ format_digits ds decpt
  end.

(** [bool(x)] *)
Definition truthy (f : spec_float) : bool :=
  match f with
  | S754_zero _ => false
  | _ => true
  end.

(** The integer [int(x)] truncates to; [None] for nan and the infinities. *)
Definition trunc (f : spec_float) : option Z :=
  match f with
  | S754_zero _ => Some 0
  | S754_finite s m e =>
      let a := if 0 <=? e then Zpos m * 2 ^ e else Zpos m / 2 ^ (- e) in
      Some (if s then - a else a)
  | _ => None
  end.


(** The double nearest to [p / d], ties to the even mantissa, for [0 <= p]
    and [0 < d]; [None] past the largest double. *)
Definition nearest (s : bool) (p d : Z) : option spec_float :=
  if p =? 0 then Some (S754_zero s)
  else
    let quot := fun e : Z =>
      if 0 <=? e then p / (d * 2 ^ e) else (p * 2 ^ (- e)) / d in
    let e1 := Z.max (Z.log2 p - Z.log2 d - 52) (-1074) in
    let e := if (quot e1 <? 2 ^ 52) && (-1074 <? e1) then e1 - 1 else e1 in
    let num := if 0 <=? e then p else p * 2 ^ (- e) in
    let den := if 0 <=? e then d * 2 ^ e else d in
    let q := num / den in
    let q' := match 2 * (num mod den) ?= den with
              | Gt => q + 1
              | Eq => if Z.even q then q else q + 1
              | Lt => q
              end in
    let '(m, e') := if q' =? 2 ^ 53 then (2 ^ 52, e + 1) else (q', e) in
    if m =? 0 then Some (S754_zero s)
    else if 971 <? e' then None
    else Some (S754_finite s (Z.to_pos m) e').

(** [round(x, ndigits)] for [0 <= ndigits]: the nearest multiple of
    [10^-ndigits], ties to the even one, read back as a double.  [None]
    stands for [OverflowError]. *)
Definition round (ndigits : Z) (f : spec_float) : option spec_float :=
  match f with
  | S754_finite s m e =>
      if 323 <? ndigits then Some f
      else
        let num := Zpos m * 2 ^ Z.max 0 e * 10 ^ ndigits in
        let den := 2 ^ Z.max 0 (- e) in
        let q := num / den in
        let q' := match 2 * (num mod den) ?= den with
                  | Gt => q + 1
                  | Eq => if Z.even q then q else q + 1
                  | Lt => q
                  end in
        nearest s q' (10 ^ ndigits)
  | _ => Some f
  end.

End Flt.


(** ** Python values

    What [json.loads] returns: [None], [bool], [int], [float], [str],
    [list] and [dict].  A [dict] keeps its keys in insertion order, so it is
    an association list; [json.loads] never produces a repeated key, and
    where one is given the first binding is the one every lookup sees. *)

#[local] Unset Elimination Schemes.

Inductive json : Type :=
| JNull
| JBool (b : bool)
| JInt (n : Z)
| JFloat (f : spec_float)
| JStr (s : string)
| JArr (items : list json)
| JObj (fields : list (string * json)).

#[local] Set Elimination Schemes.

(** Exceptions, all of them subclasses of [Exception]. *)
Inductive exn : Type :=
| KeyError (key : string)
| AttributeError (ty attr : string)
| TypeError (msg : string)
| ValueError (msg : string)
| OverflowError (msg : string)
| RequestException (cls msg : string)
| HTTPError (msg : string)
| JSONDecodeError (msg : string).

Inductive result (A : Type) : Type :=
| Ok (a : A)
| Raise (e : exn).

Arguments Ok {A} a.
Arguments Raise {A} e.

Definition bind {A B : Type} (r : result A) (k : A -> result B) : result B :=
  match r with
  | Ok a => k a
  | Raise e => Raise e
  end.

Declare Scope result_scope.
Delimit Scope result_scope with result.
Notation "x <- r ;; k" := (bind r (fun x => k))
  (at level 61, r at next level, right associativity) : result_scope.

Definition raised {A : Type} (r : result A) : bool :=
  match r with
  | Ok _ => false
  | Raise _ => true
  end.

Module Py.

Definition dquote : ascii := "034"%char.
Definition squote : ascii := "039"%char.
Definition backslash : ascii := "092"%char.
Definition newline : ascii := "010"%char.

(** [bool(v)] *)
Definition truthy (v : json) : bool :=
  match v with
  | JNull => false
  | JBool b => b
  | JInt n => negb (Z.eqb n 0)
  | JFloat f => Flt.truthy f
  | JStr s => negb (String.eqb s "")
  | JArr items => match items with [] => false | _ => true end
  | JObj fields => match fields with [] => false | _ => true end
  end.

(** [a or b] *)
Definition or (a b : json) : json := if truthy a then a else b.

(** [type(v).__name__] *)
Definition type_name (v : json) : string :=
  match v with
  | JNull => "NoneType"
  | JBool _ => "bool"
  | JInt _ => "int"
  | JFloat _ => "float"
  | JStr _ => "str"
  | JArr _ => "list"
  | JObj _ => "dict"
  end.

(** [k in d] and [d.get(k)] on the fields of a [dict]. *)
Fixpoint lookup (fields : list (string * json)) (k : string) : option json :=
  match fields with
  | [] => None
  | (k', v) :: rest => if String.eqb k k' then Some v else lookup rest k
  end.

Definition dict_get (fields : list (string * json)) (k : string) : json :=
  match lookup fields k with
  | Some v => v
  | None => JNull
  end.

(** [v.get(k)]: only a [dict] has the method. *)
Definition get (v : json) (k : string) : result json :=
  match v with
  | JObj fields => Ok (dict_get fields k)
  | _ => Raise (AttributeError (type_name v) "get")
  end.

(** The value under [k] where [v] is a [dict] that has it, else [None]. *)
Definition field (v : json) (k : string) : json :=
  match v with
  | JObj fields => dict_get fields k
  | _ => JNull
  end.

(** [v[k]] with a string key. *)
Definition getitem (v : json) (k : string) : result json :=
  match v with
  | JObj fields =>
      match lookup fields k with
      | Some x => Ok x
      | None => Raise (KeyError k)
      end
  | JStr _ => Raise (TypeError "string indices must be integers")
  | JArr _ => Raise (TypeError "list indices must be integers or slices, not str")
  | _ => Raise (TypeError ("'" ++ type_name v ++ "' object is not subscriptable"))
  end.

(** Characters that [repr] of a [str] writes as an escape. *)
Definition printable (c : ascii) : bool :=
  Str.in_range 32 126 c
  || (Str.in_range 161 255 c && negb (Nat.eqb (Str.code c) 173)).

Definition repr_char (quote c : ascii) : string :=
  if Ascii.eqb c quote || Ascii.eqb c backslash then String backslash (String c "")
  else if Nat.eqb (Str.code c) 9 then "\t"
  else if Nat.eqb (Str.code c) 10 then "\n"
  else if Nat.eqb (Str.code c) 13 then "\r"
  else if printable c then String c ""
  else "\x" ++ Str.hex2 c.

Definition repr_str (s : string) : string :=
  let quote := if Str.mem squote s && negb (Str.mem dquote s)
               then dquote else squote in
  String quote (concat "" (map (repr_char quote) (list_ascii_of_string s)))
  ++ String quote "".

(** [repr(v)] *)
Fixpoint repr (v : json) : string :=
  match v with
  | JNull => "None"
  | JBool b => if b then "True" else "False"
  | JInt n => Str.of_Z n
  | JFloat f => Flt.repr f
  | JStr s => repr_str s
  | JArr items => "[" ++ Str.join ", " (map repr items) ++ "]"
  | JObj fields =>
      "{" ++ Str.join ", "
               (map (fun kv => let '(k, x) := kv in repr_str k ++ ": " ++ repr x)
                    fields)
      ++ "}"
  end.

(** [str(v)], which is also what an f-string field [{v}] expands to. *)
Definition str (v : json) : string :=
  match v with
  | JStr s => s
  | _ => repr v
  end.

(** The digits of an [int] literal, with single underscores between
    digits. *)
Fixpoint int_digits (after_digit : bool) (acc : Z) (s : string) : option Z :=
  match s with
  | EmptyString => if after_digit then Some acc else None
  | String c s' =>
      if Str.isdigit c then int_digits true (10 * acc + Str.digit_val c) s'
      else if Ascii.eqb c "_" && after_digit then int_digits false acc s'
      else None
  end.

Definition int_of_str (s : string) : option Z :=
  match Str.strip s with
  | String "-" s' => option_map Z.opp (int_digits false 0 s')
  | String "+" s' => int_digits false 0 s'
  | s' => int_digits false 0 s'
  end.

(** [int(v)] (the digit-count limit of recent interpreters is left out). *)
Definition int (v : json) : result Z :=
  match v with
  | JBool b => Ok (if b then 1 else 0)%Z
  | JInt n => Ok n
  | JFloat f =>
      match Flt.trunc f with
      | Some n => Ok n
      | None =>
          match f with
          | S754_nan => Raise (ValueError "cannot convert float NaN to integer")
          | _ => Raise (OverflowError "cannot convert float infinity to integer")
          end
      end
  | JStr s =>
      match int_of_str s with
      | Some n => Ok n
      | None =>
          Raise (ValueError ("invalid literal for int() with base 10: "
                             ++ repr_str s))
      end
  | _ =>
      Raise (TypeError
               ("int() argument must be a string, a bytes-like object or a real number, not '"
                ++ type_name v ++ "'"))
  end.

(** [iter(v)], as a list comprehension walks it. *)
Definition iter (v : json) : result (list json) :=
  match v with
  | JArr items => Ok items
  | JObj fields => Ok (map (fun kv => JStr (fst kv)) fields)
  | JStr s => Ok (map JStr (Str.chars s))
  | _ => Raise (TypeError ("'" ++ type_name v ++ "' object is not iterable"))
  end.

(** [repr(e)] of an exception raised with one string argument. *)
Definition repr_exn (e : exn) : string :=
  match e with
  | KeyError k => "KeyError(" ++ repr_str k ++ ")"
  | AttributeError ty attr =>
      "AttributeError("
      ++ repr_str ("'" ++ ty ++ "' object has no attribute '" ++ attr ++ "'")
      ++ ")"
  | TypeError msg => "TypeError(" ++ repr_str msg ++ ")"
  | ValueError msg => "ValueError(" ++ repr_str msg ++ ")"
  | OverflowError msg => "OverflowError(" ++ repr_str msg ++ ")"
  | RequestException cls msg => cls ++ "(" ++ repr_str msg ++ ")"
  | HTTPError msg => "HTTPError(" ++ repr_str msg ++ ")"
  | JSONDecodeError msg => "JSONDecodeError(" ++ repr_str msg ++ ")"
  end.


(** [round(v, ndigits)] for [0 <= ndigits]. *)
Definition round (v : json) (ndigits : Z) : result json :=
  match v with
  | JBool b => Ok (JInt (if b then 1 else 0))
  | JInt n => Ok (JInt n)
  | JFloat f =>
      match Flt.round ndigits f with
      | Some g => Ok (JFloat g)
      | None => Raise (OverflowError "rounded value too large to represent")
      end
  | _ =>
      Raise (TypeError ("type " ++ type_name v
                        ++ " doesn't define __round__ method"))
  end.

End Py.

(** ** [json.dumps] with its defaults: ASCII only, [", "] and [": "]. *)

Module Json.

Definition escape_char (c : ascii) : string :=
  if Ascii.eqb c Py.dquote then String Py.backslash (String Py.dquote "")
  else if Ascii.eqb c Py.backslash then String Py.backslash (String Py.backslash "")
  else if Nat.eqb (Str.code c) 8 then "\b"
  else if Nat.eqb (Str.code c) 9 then "\t"
  else if Nat.eqb (Str.code c) 10 then "\n"
  else if Nat.eqb (Str.code c) 12 then "\f"
  else if Nat.eqb (Str.code c) 13 then "\r"
  else if Str.in_range 32 126 c then String c ""
  else "\u00" ++ Str.hex2 c.

Definition dumps_str (s : string) : string :=
  String Py.dquote (concat "" (map escape_char (list_ascii_of_string s)))
  ++ String Py.dquote "".

Definition dumps_float (f : spec_float) : string :=
  match f with
  | S754_nan => "NaN"
  | S754_infinity s => Flt.sign_text s ++ "Infinity"
  | _ => Flt.repr f
  end.

Fixpoint dumps (v : json) : string :=
  match v with
  | JNull => "null"
  | JBool b => if b then "true" else "false"
  | JInt n => Str.of_Z n
  | JFloat f => dumps_float f
  | JStr s => dumps_str s
  | JArr items => "[" ++ Str.join ", " (map dumps items) ++ "]"
  | JObj fields =>
      "{" ++ Str.join ", "
               (map (fun kv => let '(k, x) := kv in dumps_str k ++ ": " ++ dumps x)
                    fields)
      ++ "}"
  end.

End Json.

(** ** [datetime.fromisoformat] and [strftime]

    The parser accepts the documented format of the [isoformat] output,
    [YYYY-MM-DD[*HH[:MM[:SS[.fff[fff]]]][+HH:MM[:SS[.ffffff]]]]] where [*] is
    any one character, and then checks the ranges as the [datetime]
    constructor does.  [None] stands for [ValueError].  Interpreters from
    3.11 on read further ISO 8601 forms as well; the strings evaluated below
    are read alike by all of them. *)

Module Datetime.

Local Open Scope Z_scope.

Record datetime : Type := mk_datetime {
  year : Z;
  month : Z;
  day : Z;
  hour : Z;
  minute : Z;
  second : Z;
  microsecond : Z;
  utcoffset : option Z          (* microseconds east of UTC *)
}.

Definition is_leap (y : Z) : bool :=
  (y mod 4 =? 0) && (negb (y mod 100 =? 0) || (y mod 400 =? 0)).

Definition days_in_month (y m : Z) : Z :=
  if m =? 2 then (if is_leap y then 29 else 28)
  else if (m =? 4) || (m =? 6) || (m =? 9) || (m =? 11) then 30
  else 31.

(** A field of exactly [n] decimal digits. *)
Definition number (n : nat) (s : string) : option Z :=
  if Nat.eqb (String.length s) n && Str.all Str.isdigit s
  then Some (Str.digits_val 0 s) else None.

Definition slice (i j : nat) (s : string) : string :=
  Str.take (j - i) (Str.drop i s).

Definition char_at (i : nat) (s : string) : option ascii := String.get i s.

Definition is_char (c : ascii) (o : option ascii) : bool :=
  match o with
  | Some d => Ascii.eqb c d
  | None => false
  end.

(** [YYYY-MM-DD], exactly ten characters. *)
Definition parse_date (s : string) : option (Z * Z * Z) :=
  if Nat.eqb (String.length s) 10
     && is_char "-" (char_at 4 s) && is_char "-" (char_at 7 s) then
    match number 4 (slice 0 4 s), number 2 (slice 5 7 s), number 2 (slice 8 10 s) with
    | Some y, Some m, Some d => Some (y, m, d)
    | _, _, _ => None
    end
  else None.

(** [.fff] or [.ffffff] after the seconds, as microseconds. *)
Definition parse_fraction (s : string) : option Z :=
  match s with
  | EmptyString => Some 0
  | String "." f =>
      match number 3 f, number 6 f with
      | Some ms, _ => Some (ms * 1000)
      | None, Some us => Some us
      | None, None => None
      end
  | _ => None
  end.

(** [HH[:MM[:SS[.fff[fff]]]]] *)
Definition parse_hh_mm_ss_ff (s : string) : option (Z * Z * Z * Z) :=
  match number 2 (slice 0 2 s) with
  | None => None
  | Some h =>
      if Nat.eqb (String.length s) 2 then Some (h, 0, 0, 0)
      else if negb (is_char ":" (char_at 2 s)) then None
      else
        match number 2 (slice 3 5 s) with
        | None => None
        | Some mi =>
            if Nat.eqb (String.length s) 5 then Some (h, mi, 0, 0)
            else if negb (is_char ":" (char_at 5 s)) then None
            else
              match number 2 (slice 6 8 s), parse_fraction (Str.drop 8 s) with
              | Some sec, Some us => Some (h, mi, sec, us)
              | _, _ => None
              end
        end
  end.

(** [s.find(c)], with [None] for -1. *)
Fixpoint find (c : ascii) (s : string) : option nat :=
  match s with
  | EmptyString => None
  | String d s' => if Ascii.eqb c d then Some O else option_map S (find c s')
  end.

(** Where the UTC offset starts: at the first ['-'], or at the first ['+']
    when there is no ['-']. *)
Definition tz_pos (s : string) : option nat :=
  match find "-" s with
  | Some i => Some i
  | None => find "+" s
  end.

Definition offset_us (h mi sec us : Z) : Z :=
  ((h * 3600 + mi * 60 + sec) * 1000000) + us.

(** The time part with its optional UTC offset. *)
Definition parse_time (s : string) : option (Z * Z * Z * Z * option Z) :=
  match tz_pos s with
  | None =>
      match parse_hh_mm_ss_ff s with
      | Some (h, mi, sec, us) => Some (h, mi, sec, us, None)
      | None => None
      end
  | Some i =>
      let tzstr := Str.drop (S i) s in
      let n := String.length tzstr in
      if negb (Nat.eqb n 5 || Nat.eqb n 8 || Nat.eqb n 15) then None
      else
        match parse_hh_mm_ss_ff (Str.take i s), parse_hh_mm_ss_ff tzstr with
        | Some (h, mi, sec, us), Some (th, tm, ts, tu) =>
            let off := offset_us th tm ts tu in
            let sign := if is_char "-" (char_at i s) then -1 else 1 in
            if off <? 86400 * 1000000
            then Some (h, mi, sec, us, Some (sign * off))
            else None
        | _, _ => None
        end
  end.

Definition valid (y m d h mi sec us : Z) : bool :=
  (1 <=? y) && (y <=? 9999) && (1 <=? m) && (m <=? 12)
  && (1 <=? d) && (d <=? days_in_month y m)
  && (h <=? 23) && (mi <=? 59) && (sec <=? 59) && (us <=? 999999).

Definition fromisoformat (s : string) : option datetime :=
  match parse_date (Str.take 10 s) with
  | None => None
  | Some (y, m, d) =>
      let time :=
        if Nat.eqb (String.length s) 10 then Some (0, 0, 0, 0, None)
        else parse_time (Str.drop 11 s) in
      match time with
      | Some (h, mi, sec, us, tz) =>
          if valid y m d h mi sec us
          then Some (mk_datetime y m d h mi sec us tz) else None
      | None => None
      end
  end.

(** [dt.strftime("%m/%d/%Y")] *)
Definition strftime_mdY (dt : datetime) : string :=
  Str.zfill 2 (Str.of_Z (month dt)) ++ "/"
  ++ Str.zfill 2 (Str.of_Z (day dt)) ++ "/"
  ++ Str.zfill 4 (Str.of_Z (year dt)).

End Datetime.

(** ** The records of [main.py]

    [parse_event_api] stores [data.get(k) or ""] unconverted in five fields,
    so those hold whatever value the payload had; the other fields go
    through [str] or an f-string and are strings. *)

Module EventRecord.
Record t : Type := mk {
  event_id : string;
  event_url : string;
  name : json;
  tournament_type : string;
  host : json;
  location : json;
  address : string;
  website : json;
  email : json;
  start_date : string;
  end_date : string
}.
End EventRecord.

Module DivisionRecord.
Record t : Type := mk {
  description : string;
  entry_fee : string;
  event_division_assignment_id : string;
  event_id : string;
  maximum_teams : string
}.
End DivisionRecord.

(** The rows of the two error lists: the dict literal of [run]. *)
Module ErrorRecord.
Record t : Type := mk {
  where_ : string;
  message : string;
  item : string
}.
End ErrorRecord.

(** ** The normalizer *)

Local Open Scope result_scope.

(** [_fmt_date(iso)] *)
Definition _fmt_date (iso : json) : result string :=
  if negb (Py.truthy iso) then Ok ""
  else
    match iso with
    | JStr s =>
        match Datetime.fromisoformat (Str.replace "Z" "" s) with
        | Some dt => Ok (Datetime.strftime_mdY dt)
        | None => Ok ""
        end
    | _ => Raise (AttributeError (Py.type_name iso) "replace")
    end.

Definition empty : json := JStr "".

(** Lines 156-161 of [parse_event_api]: the four parts, after [or ""]. *)
Definition format_address (line1 city state_abbr zip_code : json) : string :=
  Str.rstrip ", "
    (Str.strip (Py.str line1 ++ String Py.newline "" ++ Py.str city ++ ", "
                ++ Py.str state_abbr ++ " " ++ Py.str zip_code)).

(** [AESScraper.parse_event_api(data)] *)
Definition parse_event_api (data : json) : result EventRecord.t :=
  v <- Py.get data "eventId" ;;
  let event_id := Py.str (Py.or v empty) in
  let event_url :=
    if Py.truthy (JStr event_id)
    then "https://www.advancedeventsystems.com/events/" ++ event_id
    else "" in
  v <- Py.get data "name" ;;
  let name := Py.or v empty in
  v <- Py.get data "affiliation" ;;
  v <- Py.get (Py.or v (JObj [])) "description" ;;
  let aff := Py.or v empty in
  v <- Py.get data "eventType" ;;
  v <- Py.get (Py.or v (JObj [])) "description" ;;
  let et := Py.or v empty in
  let tournament_type :=
    if Py.truthy (Py.or aff et)
    then Str.strip (Py.str aff ++ " " ++ Py.str et)
    else "" in
  v <- Py.get data "hostName" ;;
  host <- (if Py.truthy v then Ok v
           else w <- Py.get data "bossOrganizationName" ;; Ok (Py.or w empty)) ;;
  v <- Py.get data "locationName" ;;
  let location := Py.or v empty in
  v <- Py.get data "address" ;;
  let addr := Py.or v (JObj []) in
  v <- Py.get addr "line1" ;;
  let line1 := Py.or v empty in
  v <- Py.get addr "city" ;;
  let city := Py.or v empty in
  v <- Py.get addr "state" ;;
  v <- Py.get (Py.or v (JObj [])) "abbreviation" ;;
  let state_abbr := Py.or v empty in
  v <- Py.get addr "zip" ;;
  let zip_code := Py.or v empty in
  let address := format_address line1 city state_abbr zip_code in
  v <- Py.get data "website" ;;
  let website := Py.or v empty in
  v <- Py.get data "email" ;;
  let email := Py.or v empty in
  v <- Py.get data "startDate" ;;
  start_date <- _fmt_date v ;;
  v <- Py.get data "endDate" ;;
  end_date <- _fmt_date v ;;
  Ok (EventRecord.mk event_id event_url name tournament_type host location
        address website email start_date end_date).

(** [AESScraper.parse_division_api(data)] *)
Definition parse_division_api (data : json) : result DivisionRecord.t :=
  v <- Py.get data "eventId" ;;
  let _event_id := Py.str (Py.or v empty) in
  v <- Py.get data "description" ;;
  let description := Py.str (Py.or v empty) in
  v <- Py.get data "entryFee" ;;
  let entry_fee := Py.str (Py.or v (JStr "0")) in
  v <- Py.get data "eventDivisionAssignmentId" ;;
  let event_division_assignment_id := Py.str (Py.or v empty) in
  v <- Py.get data "eventId" ;;
  let event_id := Py.str (Py.or v empty) in
  v <- Py.get data "maximumTeams" ;;
  let maximum_teams := Py.str (Py.or v empty) in
  Ok (DivisionRecord.mk description entry_fee event_division_assignment_id
        event_id maximum_teams).

(** ** The network

    One GET, after the retries of the session's adapter, ends in one of
    three ways: the transport raises, or a response arrives whose body is
    JSON or is not.  A [network] answers every URL; a [Fetch] computation
    reads it and records, in order, the URLs it requested. *)

Inductive body : Type :=
| JsonBody (j : json)
| NotJson (msg : string).

Inductive reply : Type :=
| Failed (cls msg : string)
| Response (status : Z) (reason : string) (b : body).

Definition network : Type := string -> reply.

Definition Fetch (A : Type) : Type := network -> list string * result A.

Definition fret {A : Type} (a : A) : Fetch A := fun _ => ([], Ok a).

Definition lift {A : Type} (r : result A) : Fetch A := fun _ => ([], r).

Definition fbind {A B : Type} (m : Fetch A) (k : A -> Fetch B) : Fetch B :=
  fun net =>
    match m net with
    | (t1, Ok a) => let '(t2, r) := k a net in ((t1 ++ t2)%list, r)
    | (t1, Raise e) => (t1, Raise e)
    end.

Declare Scope fetch_scope.
Delimit Scope fetch_scope with fetch.
Notation "x <~ m ;; k" := (fbind m (fun x => k))
  (at level 61, m at next level, right associativity) : fetch_scope.

(** [self.sess.get(url, timeout=(5, 120))] *)
Definition sess_get (url : string) : Fetch (Z * string * body) :=
  fun net =>
    ([url],
     match net url with
     | Failed cls msg => Raise (RequestException cls msg)
     | Response status reason b => Ok (status, reason, b)
     end).

(** [r.raise_for_status()] *)
Definition raise_for_status (url : string) (r : Z * string * body) : result unit :=
  let '(status, reason, _) := r in
  if ((400 <=? status) && (status <? 500))%Z then
    Raise (HTTPError (Str.of_Z status ++ " Client Error: " ++ reason
                      ++ " for url: " ++ url))
  else if ((500 <=? status) && (status <? 600))%Z then
    Raise (HTTPError (Str.of_Z status ++ " Server Error: " ++ reason
                      ++ " for url: " ++ url))
  else Ok tt.

(** [r.json()] *)
Definition response_json (r : Z * string * body) : result json :=
  match snd r with
  | JsonBody j => Ok j
  | NotJson msg => Raise (JSONDecodeError msg)
  end.

(** ** The detail fetcher *)

Definition is_none (v : json) : bool :=
  match v with
  | JNull => true
  | _ => false
  end.

Definition event_endpoint (event_id : json) : string :=
  "https://www.advancedeventsystems.com/api/landing/events/" ++ Py.str event_id.

Definition scheduler_endpoint (event_scheduler_id : json) : string :=
  "https://www.advancedeventsystems.com/api/landing/events/scheduler/"
  ++ Py.str event_scheduler_id.

Definition divisions_endpoint (event_id : Z) : string :=
  "https://www.advancedeventsystems.com/api/landing/events/"
  ++ Str.of_Z event_id ++ "/divisions".

Local Open Scope fetch_scope.

(** [AESScraper._fetch_one_event(item)] *)
Definition _fetch_one_event (item : json) : Fetch EventRecord.t :=
  event_id <~ lift (Py.getitem item "eventId") ;;
  url <~ (if is_none event_id then
            event_scheduler_id <~ lift (Py.getitem item "eventSchedulerId") ;;
            fret (scheduler_endpoint event_scheduler_id)
          else fret (event_endpoint event_id)) ;;
  r <~ sess_get url ;;
  _ <~ lift (raise_for_status url r) ;;
  data <~ lift (response_json r) ;;
  lift (parse_event_api data).

(** [[self.parse_division_api(d) for d in divisions]] *)
Fixpoint parse_divisions (divisions : list json) : result (list DivisionRecord.t) :=
  match divisions with
  | [] => Ok []
  | d :: rest =>
      (rec <- parse_division_api d ;;
       recs <- parse_divisions rest ;;
       Ok (rec :: recs))%result
  end.

(** [payload["value"] if isinstance(payload, dict) and "value" in payload
     else payload] *)
Definition unwrap_value (payload : json) : json :=
  match payload with
  | JObj fields =>
      match Py.lookup fields "value" with
      | Some v => v
      | None => payload
      end
  | _ => payload
  end.

(** [AESScraper._fetch_one_division(event)] *)
Definition _fetch_one_division (event : json) : Fetch (list DivisionRecord.t) :=
  event_id <~ lift (Py.get event "eventId") ;;
  if is_none event_id then fret []
  else
    n <~ lift (Py.int event_id) ;;
    let url := divisions_endpoint n in
    r <~ sess_get url ;;
    _ <~ lift (raise_for_status url r) ;;
    payload <~ lift (response_json r) ;;
    let divisions := Py.or (unwrap_value payload) (JArr []) in
    ds <~ lift (Py.iter divisions) ;;
    lift (parse_divisions ds).

(** ** The two phases of [AESScraper.run]

    [ex.submit] makes one future per item, and the dict [futures] maps it
    back to its item.  A task sees the network as it is when it runs, so
    the [i]-th task has a network of its own.  [as_completed] hands every
    future out once, in the order of completion: a phase is a loop over the
    completed futures in that order. *)

Record future (A : Type) : Type := mk_future {
  fut_item : json;
  fut_requests : list string;
  fut_result : result A
}.

Arguments mk_future {A} _ _ _.
Arguments fut_item {A} _.
Arguments fut_requests {A} _.
Arguments fut_result {A} _.

Definition submit {A : Type} (fn : json -> Fetch A) (net : network) (event : json)
  : future A :=
  let '(reqs, r) := fn event net in mk_future event reqs r.

(** [{ex.submit(fn, event): event for event in events}], the [i]-th task
    running against [world (first + i)]. *)
Fixpoint submit_all {A : Type} (fn : json -> Fetch A) (world : nat -> network)
  (first : nat) (events : list json) : list (future A) :=
  match events with
  | [] => []
  | event :: rest =>
      submit fn (world first) event :: submit_all fn world (S first) rest
  end.

(** The dict appended to an error list. *)
Definition error_record (e : exn) (item : json) : ErrorRecord.t :=
  ErrorRecord.mk "detail" (Py.repr_exn e) (Str.take 500 (Json.dumps item)).

(** One turn of the loop at lines 199-212. *)
Definition division_step
  (acc : list DivisionRecord.t * list ErrorRecord.t)
  (fut : future (list DivisionRecord.t))
  : list DivisionRecord.t * list ErrorRecord.t :=
  let '(division_records, division_errors) := acc in
  match fut_result fut with
  | Ok recs =>
      match recs with
      | [] => (division_records, division_errors)
      | _ => ((division_records ++ recs)%list, division_errors)
      end
  | Raise e =>
      (division_records,
       (division_errors ++ [error_record e (fut_item fut)])%list)
  end.

(** One turn of the loop at lines 218-230. *)
Definition event_step
  (acc : list EventRecord.t * list ErrorRecord.t)
  (fut : future EventRecord.t)
  : list EventRecord.t * list ErrorRecord.t :=
  let '(event_records, event_errors) := acc in
  match fut_result fut with
  | Ok rec => ((event_records ++ [rec])%list, event_errors)
  | Raise e =>
      (event_records, (event_errors ++ [error_record e (fut_item fut)])%list)
  end.

Definition division_phase (completed : list (future (list DivisionRecord.t)))
  : list DivisionRecord.t * list ErrorRecord.t :=
  fold_left division_step completed ([], []).

Definition event_phase (completed : list (future EventRecord.t))
  : list EventRecord.t * list ErrorRecord.t :=
  fold_left event_step completed ([], []).

(** ** Sample data *)

Definition ex_event : json :=
  JObj [("eventId", JInt 31452); ("name", JStr "Spring Classic");
        ("affiliation", JObj [("description", JStr "USAV")]);
        ("eventType", JNull);
        ("bossOrganizationName", JStr "Capital Region");
        ("address", JObj [("line1", JStr "123 Main"); ("city", JStr "Springfield");
                          ("state", JObj [("abbreviation", JStr "IL")]);
                          ("zip", JStr "62704")]);
        ("startDate", JStr "2024-03-01T00:00:00Z");
        ("endDate", JStr "2024-03-02T00:00:00")].

(** A server that answers every URL with the same event. *)
Definition net_ok : network := fun _ => Response 200 "OK" (JsonBody ex_event).

(** A server that knows no URL. *)
Definition net_404 : network := fun _ => Response 404 "Not Found" (NotJson "").

(** A transport that times out. *)
Definition net_down : network :=
  fun _ => Failed "ConnectTimeout" "timed out".

(** An item that carries neither identifier. *)
Definition item_neither : json :=
  JObj [("eventId", JNull); ("eventSchedulerId", JNull)].

(** An item known by its scheduler identifier only. *)
Definition item_scheduler : json :=
  JObj [("eventId", JNull); ("eventSchedulerId", JInt 88)].

Definition item_event (n : Z) : json := JObj [("eventId", JInt n)].

(** The first task finds the server up, the second one times out, the
    others find it up again. *)
Definition world_flaky : nat -> network :=
  fun i => if Nat.eqb i 1 then net_down else net_ok.

(** The address of the specification's example, and a payload around it. *)
Definition ex_address : json :=
  JObj [("line1", JStr "123 Main"); ("city", JStr "Springfield");
        ("state", JObj [("abbreviation", JStr "IL")]); ("zip", JStr "62704")].

Definition ex_address_payload : json := JObj [("address", ex_address)].

(** ** Vocabulary of the statements *)

(** The outcome of a future. *)
Definition failed {A : Type} (fut : future A) : bool := raised (fut_result fut).

Definition successes {A : Type} (completed : list (future A)) : list A :=
  flat_map (fun fut => match fut_result fut with
                       | Ok a => [a]
                       | Raise _ => []
                       end) completed.

Definition errors_of {A : Type} (completed : list (future A)) : list ErrorRecord.t :=
  flat_map (fun fut => match fut_result fut with
                       | Ok _ => []
                       | Raise e => [error_record e (fut_item fut)]
                       end) completed.

Definition nonempty {A : Type} (l : list A) : bool :=
  match l with
  | [] => false
  | _ :: _ => true
  end.

(** The per-item lists that the successful futures of a division phase
    returned. *)
Definition success_lists {A : Type} (completed : list (future (list A)))
  : list (list A) := successes completed.

(** Lines 98-101 of [_fetch_one_event], from the reply to the GET of [url]
    on. *)
Definition detail_of_reply (url : string) (rp : reply) : result EventRecord.t :=
  match rp with
  | Failed cls msg => Raise (RequestException cls msg)
  | Response status reason b =>
      (_ <- raise_for_status url (status, reason, b) ;;
       data <- response_json (status, reason, b) ;;
       parse_event_api data)%result
  end.

(** Shapes of the nested payload fields that [parse_event_api] can walk: a
    [dict] or anything falsy where it calls [.get], a [str] or anything
    falsy where it formats a date. *)
Definition dict_or_falsy (v : json) : bool :=
  match v with
  | JObj _ => true
  | _ => negb (Py.truthy v)
  end.

Definition str_or_falsy (v : json) : bool :=
  match v with
  | JStr _ => true
  | _ => negb (Py.truthy v)
  end.

Definition well_shaped (fields : list (string * json)) : bool :=
  dict_or_falsy (Py.dict_get fields "affiliation")
  && dict_or_falsy (Py.dict_get fields "eventType")
  && dict_or_falsy (Py.dict_get fields "address")
  && dict_or_falsy (Py.field (Py.dict_get fields "address") "state")
  && str_or_falsy (Py.dict_get fields "startDate")
  && str_or_falsy (Py.dict_get fields "endDate").


(** ** The catalog fetcher and [run] *)

Definition BASE : string := "https://www.advancedeventsystems.com".

(** [AESScraper._event_url_from_id(event_id)] *)
Definition _event_url_from_id (event_id : json) : string :=
  BASE ++ "/events/" ++ Py.str event_id.

(** [requests.get(url)]: one GET outside the session, no retry. *)
Definition requests_get (url : string) : Fetch (Z * string * body) :=
  fun net =>
    ([url],
     match net url with
     | Failed cls msg => Raise (RequestException cls msg)
     | Response status reason b => Ok (status, reason, b)
     end).

(** [AESScraper.fetch_total_counts()] *)
Definition fetch_total_counts (is_past_events : bool) : Fetch json :=
  (request <~ requests_get
     ("https://www.advancedeventsystems.com/api/landing/events?$count=true&$filter=isPastEvent+eq+"
      ++ Str.lower (Py.str (JBool is_past_events))
      ++ "&$format=json&$orderby=startDate,name&$top=100") ;;
   api_events <~ lift (response_json request) ;;
   lift (Py.getitem api_events "@odata.count"))%fetch.

(** [AESScraper.fetch_events(count)] *)
Definition fetch_events (is_past_events : bool) (count : json) : Fetch json :=
  (let url :=
     "https://www.advancedeventsystems.com/api/landing/events?$count=true&$filter=isPastEvent+eq+"
     ++ Str.lower (Py.str (JBool is_past_events))
     ++ "&$format=json&$orderby=startDate,name&$top=" ++ Py.str count in
   request <~ requests_get url ;;
   api_events <~ lift (response_json request) ;;
   lift (Py.getitem api_events "value"))%fetch.

(** The four lists that [run] hands to the Excel writer. *)
Record run_lists : Type := mk_run_lists {
  event_records : list EventRecord.t;
  event_errors : list ErrorRecord.t;
  division_records : list DivisionRecord.t;
  division_errors : list ErrorRecord.t
}.

(** Lines 186-187 of [run], and the [for event in events] that both phases
    start with. *)
Definition fetch_catalog (is_past_events : bool) : Fetch (list json) :=
  (count <~ fetch_total_counts is_past_events ;;
   rounded <~ lift (Py.round count 2) ;;
   events <~ fetch_events is_past_events rounded ;;
   lift (Py.iter events))%fetch.

(** [AESScraper.run(out_path, workers)] up to line 230.  [net] is the network
    of the two catalog requests, [world_d] and [world_e] those of the tasks
    of the division and of the event phase, [done_d] and [done_e] the order
    in which [as_completed] hands the futures of each phase out.  The
    requests are listed by phase, and within a phase by completed future. *)
Definition run (is_past_events : bool) (net : network)
  (world_d world_e : nat -> network)
  (done_d : list (future (list DivisionRecord.t))
            -> list (future (list DivisionRecord.t)))
  (done_e : list (future EventRecord.t) -> list (future EventRecord.t))
  : list string * result run_lists :=
  match fetch_catalog is_past_events net with
  | (reqs, Raise e) => (reqs, Raise e)
  | (reqs, Ok events) =>
      let completed_d := done_d (submit_all _fetch_one_division world_d 0 events) in
      let completed_e := done_e (submit_all _fetch_one_event world_e 0 events) in
      let '(division_records, division_errors) := division_phase completed_d in
      let '(event_records, event_errors) := event_phase completed_e in
      ((reqs ++ flat_map fut_requests completed_d
             ++ flat_map fut_requests completed_e)%list,
       Ok (mk_run_lists event_records event_errors
             division_records division_errors))
  end.



(** A division server: the array of two divisions, bare. *)
Definition ex_divisions : list json :=
  [JObj [("description", JStr "18 Open"); ("entryFee", JInt 450);
         ("eventId", JInt 31452); ("maximumTeams", JInt 32)];
   JObj [("description", JStr "16 Club"); ("eventId", JInt 31452)]].

Definition net_divisions : network :=
  fun _ => Response 200 "OK" (JsonBody (JArr ex_divisions)).

(** The same array under the key [value]. *)
Definition net_divisions_wrapped : network :=
  fun _ => Response 200 "OK" (JsonBody (JObj [("value", JArr ex_divisions)])).

(** ** More vocabulary *)

Definition is_dict (v : json) : bool :=
  match v with
  | JObj _ => true
  | _ => false
  end.

(** [400 <= status < 600], the statuses on which [raise_for_status] raises. *)
Definition error_status (status : Z) : bool :=
  ((400 <=? status) && (status <? 600))%Z.

(** Lines 109-119 of [_fetch_one_division], from the reply to the GET of
    [url] on. *)
Definition divisions_of_reply (url : string) (rp : reply)
  : result (list DivisionRecord.t) :=
  match rp with
  | Failed cls msg => Raise (RequestException cls msg)
  | Response status reason b =>
      (_ <- raise_for_status url (status, reason, b) ;;
       payload <- response_json (status, reason, b) ;;
       ds <- Py.iter (Py.or (unwrap_value payload) (JArr [])) ;;
       parse_divisions ds)%result
  end.

Definition first_char (s : string) : option ascii :=
  match s with
  | EmptyString => None
  | String c _ => Some c
  end.




(** The sum of the lengths of the lists that the futures returned. *)
Definition records_returned {A : Type} (completed : list (future (list A))) : nat :=
  list_sum (map (fun l => List.length l) (successes completed)).

(** * Properties *)

(** ** Strings *)

Lemma last_rstrip_by (p : ascii -> bool) (s : string) (c : ascii) :
  Str.last (Str.rstrip_by p s) = Some c -> p c = false.
Proof.
  induction s as [| a s IH]; simpl.
  - discriminate.
  - destruct (Str.rstrip_by p s) as [| b r] eqn:E.
    + destruct (p a) eqn:Ea; simpl.
      * discriminate.
      * intros H. injection H as <-. exact Ea.
    + simpl. exact IH.
Qed.


(** ** The normalizer *)

Lemma bind_Ok {A B : Type} (a : A) (k : A -> result B) : bind (Ok a) k = k a.
Proof. reflexivity. Qed.

Lemma get_dict (fields : list (string * json)) (k : string) :
  Py.get (JObj fields) k = Ok (Py.dict_get fields k).
Proof. reflexivity. Qed.

Lemma get_or_dict (v : json) (k : string) :
  Py.get (Py.or v (JObj [])) k =
  if dict_or_falsy v then Ok (Py.field v k)
  else Raise (AttributeError (Py.type_name v) "get").
Proof.
  unfold Py.or.
  destruct v as [| b | n | f | s | items | fields]; simpl; try reflexivity.
  - destruct b; reflexivity.
  - destruct (Z.eqb n 0); reflexivity.
  - destruct (Flt.truthy f); reflexivity.
  - destruct (String.eqb s ""); reflexivity.
  - destruct items; reflexivity.
  - destruct fields; reflexivity.
Qed.

Lemma or_falsy (v d : json) : Py.truthy v = false -> Py.or v d = d.
Proof. unfold Py.or. intros ->. reflexivity. Qed.

Lemma or_truthy (v d : json) : Py.truthy v = true -> Py.or v d = v.
Proof. unfold Py.or. intros ->. reflexivity. Qed.

Lemma fmt_date_falsy (v : json) : Py.truthy v = false -> _fmt_date v = Ok "".
Proof. unfold _fmt_date. intros ->. reflexivity. Qed.

Lemma fmt_date_str (s : string) :
  _fmt_date (JStr s) =
  Ok (match Datetime.fromisoformat (Str.replace "Z" "" s) with
      | Some dt => Datetime.strftime_mdY dt
      | None => ""
      end).
Proof.
  destruct s as [| a s].
  - reflexivity.
  - unfold _fmt_date. cbn [Py.truthy String.eqb negb].
    destruct (Datetime.fromisoformat _); reflexivity.
Qed.

Lemma fmt_date_shaped (v : json) :
  str_or_falsy v = true -> exists out, _fmt_date v = Ok out.
Proof.
  destruct v as [| b | n | f | s | items | fields]; simpl; intros H;
    try (apply negb_true_iff in H; eexists; apply fmt_date_falsy; exact H).
  - eexists. reflexivity.
  - eexists. apply fmt_date_str.
Qed.

Lemma fmt_date_misshaped (v : json) :
  str_or_falsy v = false ->
  _fmt_date v = Raise (AttributeError (Py.type_name v) "replace").
Proof.
  unfold _fmt_date.
  destruct v as [| b | n | f | s | items | fields]; simpl; intros H;
    try discriminate; apply negb_false_iff in H; simpl in H; rewrite H;
    reflexivity.
Qed.

(** Walks [parse_event_api] on a [dict] up to the next [.get] that can fail. *)
Ltac walk_gets :=
  repeat (rewrite get_dict; rewrite bind_Ok).

Ltac walk_nested E :=
  rewrite get_or_dict;
  match goal with
  | |- context [if dict_or_falsy ?v then _ else _] =>
      destruct (dict_or_falsy v) eqn:E; [rewrite bind_Ok | discriminate]
  end.

Ltac walk_date E out :=
  match goal with
  | |- context [bind (_fmt_date ?v) _] =>
      destruct (_fmt_date v) as [out |] eqn:E; [rewrite bind_Ok | discriminate]
  end.

Lemma fmt_date_Ok_shaped (v : json) (out : string) :
  _fmt_date v = Ok out -> str_or_falsy v = true.
Proof.
  destruct (str_or_falsy v) eqn:E; [reflexivity |].
  rewrite (fmt_date_misshaped v E). discriminate.
Qed.

(** What a successful [parse_event_api] says about its payload and its
    record. *)
Lemma parse_event_api_inv (data : json) (rec : EventRecord.t) :
  parse_event_api data = Ok rec ->
  exists fields start_date end_date,
    data = JObj fields
    /\ well_shaped fields = true
    /\ _fmt_date (Py.dict_get fields "startDate") = Ok start_date
    /\ _fmt_date (Py.dict_get fields "endDate") = Ok end_date
    /\ rec =
       let event_id := Py.str (Py.or (Py.dict_get fields "eventId") empty) in
       let aff := Py.or (Py.field (Py.dict_get fields "affiliation") "description") empty in
       let et := Py.or (Py.field (Py.dict_get fields "eventType") "description") empty in
       let addr := Py.dict_get fields "address" in
       EventRecord.mk
         event_id
         (if Py.truthy (JStr event_id)
          then "https://www.advancedeventsystems.com/events/" ++ event_id
          else "")
         (Py.or (Py.dict_get fields "name") empty)
         (if Py.truthy (Py.or aff et)
          then Str.strip (Py.str aff ++ " " ++ Py.str et) else "")
         (Py.or (Py.dict_get fields "hostName")
            (Py.or (Py.dict_get fields "bossOrganizationName") empty))
         (Py.or (Py.dict_get fields "locationName") empty)
         (format_address
            (Py.or (Py.field addr "line1") empty)
            (Py.or (Py.field addr "city") empty)
            (Py.or (Py.field (Py.field addr "state") "abbreviation") empty)
            (Py.or (Py.field addr "zip") empty))
         (Py.or (Py.dict_get fields "website") empty)
         (Py.or (Py.dict_get fields "email") empty)
         start_date end_date.
Proof.
  destruct data as [| b | n | f | s | items | fields]; try discriminate.
  unfold parse_event_api, well_shaped.
  walk_gets. walk_nested E1. walk_gets. walk_nested E2. walk_gets.
  assert (Hhost :
    (if Py.truthy (Py.dict_get fields "hostName")
     then Ok (Py.dict_get fields "hostName")
     else Ok (Py.or (Py.dict_get fields "bossOrganizationName") empty))
    = Ok (Py.or (Py.dict_get fields "hostName")
            (Py.or (Py.dict_get fields "bossOrganizationName") empty))).
  { unfold Py.or at 2.
    destruct (Py.truthy (Py.dict_get fields "hostName")); reflexivity. }
  rewrite Hhost, bind_Ok. clear Hhost.
  walk_gets. walk_nested Ea. walk_nested Eb. walk_nested Ec.
  walk_nested Es. walk_nested Ed. walk_gets.
  walk_date E5 start_date. walk_gets. walk_date E6 end_date.
  intros H. injection H as <-.
  exists fields, start_date, end_date.
  rewrite (fmt_date_Ok_shaped _ _ E5), (fmt_date_Ok_shaped _ _ E6).
  rewrite E1, E2, Ed, Es.
  repeat split; solve [reflexivity | assumption].
Qed.

(** [parse_event_api] returns a record on every well-shaped [dict]. *)
Lemma parse_event_api_shaped (fields : list (string * json)) :
  well_shaped fields = true ->
  exists rec, parse_event_api (JObj fields) = Ok rec.
Proof.
  unfold well_shaped. intros H.
  apply andb_prop in H as [H Hend].
  apply andb_prop in H as [H Hstart].
  apply andb_prop in H as [H Hstate].
  apply andb_prop in H as [H Haddr].
  apply andb_prop in H as [Haff Htype].
  destruct (fmt_date_shaped _ Hstart) as [start_date Es].
  destruct (fmt_date_shaped _ Hend) as [end_date Ee].
  unfold parse_event_api.
  walk_gets. rewrite get_or_dict, Haff, bind_Ok.
  walk_gets. rewrite get_or_dict, Htype, bind_Ok.
  walk_gets.
  destruct (Py.truthy (Py.dict_get fields "hostName")); rewrite bind_Ok;
    walk_gets;
    rewrite !get_or_dict, Haddr, !bind_Ok;
    rewrite !get_or_dict, Hstate, !bind_Ok;
    walk_gets; rewrite Es, bind_Ok; walk_gets; rewrite Ee, bind_Ok;
    eexists; reflexivity.
Qed.

(** And on nothing else. *)
Lemma parse_event_api_misshaped (data : json) :
  match data with
  | JObj fields => well_shaped fields = false
  | _ => True
  end ->
  raised (parse_event_api data) = true.
Proof.
  intros H. destruct (parse_event_api data) as [rec |] eqn:E; [| reflexivity].
  apply parse_event_api_inv in E as (fields & _ & _ & -> & Hs & _).
  congruence.
Qed.


Lemma parse_division_api_dict (fields : list (string * json)) :
  parse_division_api (JObj fields) =
  Ok (DivisionRecord.mk
        (Py.str (Py.or (Py.dict_get fields "description") empty))
        (Py.str (Py.or (Py.dict_get fields "entryFee") (JStr "0")))
        (Py.str (Py.or (Py.dict_get fields "eventDivisionAssignmentId") empty))
        (Py.str (Py.or (Py.dict_get fields "eventId") empty))
        (Py.str (Py.or (Py.dict_get fields "maximumTeams") empty))).
Proof. reflexivity. Qed.

Lemma dict_get_lookup (fields : list (string * json)) (k : string) (v : json) :
  Py.lookup fields k = Some v -> Py.dict_get fields k = v.
Proof. unfold Py.dict_get. intros ->. reflexivity. Qed.

Lemma dict_get_missing (fields : list (string * json)) (k : string) :
  Py.lookup fields k = None -> Py.dict_get fields k = JNull.
Proof. unfold Py.dict_get. intros ->. reflexivity. Qed.

(** C2 (amended): on every payload that is a dict whose [affiliation],
    [eventType], [address] and [address.state] are each absent, falsy or a
    dict, and whose [startDate] and [endDate] are each absent, falsy or a
    string, [parse_event_api] returns a record and does not raise; in that
    record every field whose source data is missing or null is the empty
    string. *)
Theorem parse_event_api_total_on_well_shaped :
  forall fields : list (string * json),
    well_shaped fields = true ->
    exists rec : EventRecord.t,
      parse_event_api (JObj fields) = Ok rec
      /\ (Py.dict_get fields "eventId" = JNull ->
          EventRecord.event_id rec = "" /\ EventRecord.event_url rec = "")
      /\ (Py.dict_get fields "name" = JNull -> EventRecord.name rec = JStr "")
      /\ (Py.field (Py.dict_get fields "affiliation") "description" = JNull ->
          Py.field (Py.dict_get fields "eventType") "description" = JNull ->
          EventRecord.tournament_type rec = "")
      /\ (Py.dict_get fields "hostName" = JNull ->
          Py.dict_get fields "bossOrganizationName" = JNull ->
          EventRecord.host rec = JStr "")
      /\ (Py.dict_get fields "locationName" = JNull ->
          EventRecord.location rec = JStr "")
      /\ (Py.field (Py.dict_get fields "address") "line1" = JNull ->
          Py.field (Py.dict_get fields "address") "city" = JNull ->
          Py.field (Py.field (Py.dict_get fields "address") "state")
            "abbreviation" = JNull ->
          Py.field (Py.dict_get fields "address") "zip" = JNull ->
          EventRecord.address rec = "")
      /\ (Py.dict_get fields "website" = JNull -> EventRecord.website rec = JStr "")
      /\ (Py.dict_get fields "email" = JNull -> EventRecord.email rec = JStr "")
      /\ (Py.dict_get fields "startDate" = JNull -> EventRecord.start_date rec = "")
      /\ (Py.dict_get fields "endDate" = JNull -> EventRecord.end_date rec = "").
Proof.
  intros fields Hshape.
  destruct (parse_event_api_shaped fields Hshape) as [rec Hrec].
  exists rec. split; [exact Hrec |].
  apply parse_event_api_inv in Hrec
    as (fields' & start_date & end_date & Heq & _ & Hs & He & ->).
  injection Heq as <-. cbn [EventRecord.event_id EventRecord.event_url
    EventRecord.name EventRecord.tournament_type EventRecord.host
    EventRecord.location EventRecord.address EventRecord.website
    EventRecord.email EventRecord.start_date EventRecord.end_date].
  repeat split; intros; repeat match goal with
                               | H : _ = JNull |- _ => rewrite H in *; clear H
                               end; try reflexivity.
  - rewrite fmt_date_falsy in Hs by reflexivity. congruence.
  - rewrite fmt_date_falsy in He by reflexivity. congruence.
Qed.

Lemma parse_event_api_total_on_well_shaped_witness :
  exists rec : EventRecord.t,
    parse_event_api (JObj [("name", JStr "Spring Classic"); ("address", JNull)])
    = Ok rec
    /\ EventRecord.address rec = "" /\ EventRecord.start_date rec = "".
Proof.
  destruct (parse_event_api_total_on_well_shaped
              [("name", JStr "Spring Classic"); ("address", JNull)] eq_refl)
    as (rec & Hrec & _ & _ & _ & _ & _ & Haddr & _ & _ & Hstart & _).
  exists rec. split; [exact Hrec |]. split.
  - apply Haddr; reflexivity.
  - apply Hstart; reflexivity.
Defined.

(** C2 (as stated) fails: a payload whose [affiliation] is a string makes
    [parse_event_api] raise [AttributeError], as [str] has no [get]. *)
Lemma parse_event_api_raises_on_string_affiliation :
  parse_event_api (JObj [("affiliation", JStr "USAV")])
  = Raise (AttributeError "str" "get").
Proof. reflexivity. Qed.


(** C8: in the record that [parse_event_api] builds, [event_url] is the
    empty string if and only if [event_id] is the empty string. *)
Theorem event_url_empty_iff_event_id_empty :
  forall (data : json) (rec : EventRecord.t),
    parse_event_api data = Ok rec ->
    (EventRecord.event_url rec = "" <-> EventRecord.event_id rec = "").
Proof.
  intros data rec Hrec.
  apply parse_event_api_inv in Hrec
    as (fields & start_date & end_date & _ & _ & _ & _ & ->).
  cbn [EventRecord.event_url EventRecord.event_id].
  destruct (Py.str (Py.or (Py.dict_get fields "eventId") empty)) as [| c s].
  - split; reflexivity.
  - split; discriminate.
Qed.

Lemma event_url_empty_iff_event_id_empty_witness :
  parse_event_api ex_event
  = Ok (EventRecord.mk "31452"
          "https://www.advancedeventsystems.com/events/31452"
          (JStr "Spring Classic") "USAV" (JStr "Capital Region") (JStr "")
          ("123 Main" ++ String Py.newline "Springfield, IL 62704")
          (JStr "") (JStr "") "03/01/2024" "03/02/2024")
  /\ ("https://www.advancedeventsystems.com/events/31452" = ""
      <-> "31452" = "").
Proof.
  split.
  - reflexivity.
  - exact (event_url_empty_iff_event_id_empty ex_event _ eq_refl).
Defined.

(** C5 (amended): [parse_division_api] sets [entry_fee] to ["0"] when the
    [entryFee] field is absent or holds a falsy value, and to [str] of the
    value when the field holds a truthy value. *)
Theorem entry_fee_default :
  forall fields : list (string * json),
    exists rec : DivisionRecord.t,
      parse_division_api (JObj fields) = Ok rec
      /\ DivisionRecord.entry_fee rec
         = match Py.lookup fields "entryFee" with
           | None => "0"
           | Some v => if Py.truthy v then Py.str v else "0"
           end.
Proof.
  intros fields. eexists. split; [apply parse_division_api_dict |].
  cbn [DivisionRecord.entry_fee]. unfold Py.dict_get, Py.or.
  destruct (Py.lookup fields "entryFee") as [v |]; [| reflexivity].
  destruct (Py.truthy v); reflexivity.
Qed.

(** C5 (as stated) fails: with [entryFee] present and equal to the empty
    string, [entry_fee] is ["0"] and not the stringified value [""]. *)
Lemma entry_fee_of_empty_string :
  exists rec : DivisionRecord.t,
    parse_division_api (JObj [("entryFee", JStr "")]) = Ok rec
    /\ DivisionRecord.entry_fee rec = "0"
    /\ DivisionRecord.entry_fee rec <> Py.str (JStr "").
Proof.
  eexists. split; [reflexivity |]. split; [reflexivity | discriminate].
Qed.

(** C10: when [entryFee] is present but falsy, as the number 0, the empty
    string, [false] and [null] are, [parse_division_api] sets [entry_fee] to
    ["0"], which is what it does when the field is absent. *)
Theorem entry_fee_falsy_is_zero :
  forall (fields : list (string * json)) (v : json),
    Py.lookup fields "entryFee" = Some v ->
    Py.truthy v = false ->
    Forall (fun x => Py.truthy x = false) [JInt 0; JStr ""; JBool false; JNull]
    /\ exists rec : DivisionRecord.t,
        parse_division_api (JObj fields) = Ok rec
        /\ DivisionRecord.entry_fee rec = "0"
        /\ forall fields' : list (string * json),
            Py.lookup fields' "entryFee" = None ->
            exists rec' : DivisionRecord.t,
              parse_division_api (JObj fields') = Ok rec'
              /\ DivisionRecord.entry_fee rec' = DivisionRecord.entry_fee rec.
Proof.
  intros fields v Hv Hfalsy. split.
  - repeat constructor.
  - eexists. split; [apply parse_division_api_dict |].
    cbn [DivisionRecord.entry_fee].
    rewrite (dict_get_lookup _ _ _ Hv), (or_falsy _ _ Hfalsy).
    split; [reflexivity |].
    intros fields' Hnone. eexists. split; [apply parse_division_api_dict |].
    cbn [DivisionRecord.entry_fee].
    rewrite (dict_get_missing _ _ Hnone). reflexivity.
Qed.

Lemma entry_fee_falsy_is_zero_witness :
  exists rec : DivisionRecord.t,
    parse_division_api
      (JObj [("description", JStr "18 Open"); ("entryFee", JInt 0)]) = Ok rec
    /\ DivisionRecord.entry_fee rec = "0".
Proof.
  destruct (entry_fee_falsy_is_zero
              [("description", JStr "18 Open"); ("entryFee", JInt 0)]
              (JInt 0) eq_refl eq_refl)
    as (_ & rec & Hrec & Hfee & _).
  exists rec. split; assumption.
Defined.



(** ** The detail fetcher *)

(** C3: for an item that has no event identifier (the key is absent or its
    value is [None]) [_fetch_one_division] returns the empty list, requests
    no URL and raises nothing, whatever the network would answer. *)
Theorem fetch_one_division_without_event_id :
  forall (net : network) (fields : list (string * json)),
    Py.dict_get fields "eventId" = JNull ->
    _fetch_one_division (JObj fields) net = ([], Ok []).
Proof.
  intros net fields H.
  unfold _fetch_one_division, fbind, lift. rewrite get_dict, H. reflexivity.
Qed.

Lemma fetch_one_division_without_event_id_witness :
  _fetch_one_division (JObj [("eventSchedulerId", JInt 88)]) net_ok = ([], Ok []).
Proof.
  exact (fetch_one_division_without_event_id net_ok
           [("eventSchedulerId", JInt 88)] eq_refl).
Defined.

Lemma fbind_lift_Ok {A B : Type} (a : A) (k : A -> Fetch B) (net : network) :
  fbind (lift (Ok a)) k net = k a net.
Proof. unfold fbind, lift. destruct (k a net). reflexivity. Qed.

Lemma fbind_lift_Raise {A B : Type} (e : exn) (k : A -> Fetch B) (net : network) :
  fbind (lift (Raise e)) k net = ([], Raise e).
Proof. reflexivity. Qed.

Lemma fbind_fret {A B : Type} (a : A) (k : A -> Fetch B) (net : network) :
  fbind (fret a) k net = k a net.
Proof. unfold fbind, fret. destruct (k a net). reflexivity. Qed.

Lemma fbind_assoc {A B C : Type} (m : Fetch A) (f : A -> Fetch B)
  (g : B -> Fetch C) (net : network) :
  fbind (fbind m f) g net = fbind m (fun x => fbind (f x) g) net.
Proof.
  unfold fbind. destruct (m net) as [t1 [a | e]]; [| reflexivity].
  destruct (f a net) as [t2 [b | e]]; [| reflexivity].
  destruct (g b net) as [t3 r]. rewrite app_assoc. reflexivity.
Qed.

Lemma fetch_one_event_at (url : string) (net : network) :
  (r <~ sess_get url ;;
   _ <~ lift (raise_for_status url r) ;;
   data <~ lift (response_json r) ;;
   lift (parse_event_api data))%fetch net
  = ([url], detail_of_reply url (net url)).
Proof.
  unfold fbind, sess_get, lift, detail_of_reply.
  destruct (net url) as [cls msg | status reason b]; [reflexivity |].
  destruct (raise_for_status url (status, reason, b)) as [[] | e];
    [| reflexivity].
  cbn [bind].
  destruct (response_json (status, reason, b)) as [data | e]; reflexivity.
Qed.

(** C6 (amended): for an item that has the key [eventId],
    [_fetch_one_event] issues exactly one GET, to the event endpoint of the
    identifier when it is not [None], and to the scheduler endpoint of the
    value under [eventSchedulerId] when it is [None] (for a value [None]
    that is the URL ending in [scheduler/None]); the item then succeeds or
    fails as the reply to that GET decides.  With [eventId] equal to [None]
    and no key [eventSchedulerId] it raises [KeyError] and requests
    nothing. *)
Theorem fetch_one_event_endpoint :
  forall (net : network) (fields : list (string * json)) (event_id : json),
    Py.lookup fields "eventId" = Some event_id ->
    (event_id <> JNull ->
     _fetch_one_event (JObj fields) net
     = ([event_endpoint event_id],
        detail_of_reply (event_endpoint event_id) (net (event_endpoint event_id))))
    /\ (event_id = JNull ->
        forall sid : json,
          Py.lookup fields "eventSchedulerId" = Some sid ->
          _fetch_one_event (JObj fields) net
          = ([scheduler_endpoint sid],
             detail_of_reply (scheduler_endpoint sid)
               (net (scheduler_endpoint sid))))
    /\ (event_id = JNull ->
        Py.lookup fields "eventSchedulerId" = None ->
        _fetch_one_event (JObj fields) net
        = ([], Raise (KeyError "eventSchedulerId"))).
Proof.
  intros net fields event_id Hid.
  unfold _fetch_one_event. cbn [Py.getitem]. rewrite Hid, fbind_lift_Ok.
  split; [| split].
  - intros Hnn.
    destruct event_id; try contradiction; cbn [is_none];
      rewrite fbind_fret; apply fetch_one_event_at.
  - intros -> sid Hsid. cbn [is_none].
    rewrite fbind_assoc, Hsid, fbind_lift_Ok, fbind_fret.
    apply fetch_one_event_at.
  - intros -> Hsid. cbn [is_none].
    rewrite fbind_assoc, Hsid. reflexivity.
Qed.

Lemma fetch_one_event_endpoint_witness :
  _fetch_one_event item_scheduler net_ok
  = (["https://www.advancedeventsystems.com/api/landing/events/scheduler/88"],
     detail_of_reply
       "https://www.advancedeventsystems.com/api/landing/events/scheduler/88"
       (Response 200 "OK" (JsonBody ex_event))).
Proof.
  destruct (fetch_one_event_endpoint net_ok
              [("eventId", JNull); ("eventSchedulerId", JInt 88)] JNull eq_refl)
    as (_ & Hsched & _).
  exact (Hsched eq_refl (JInt 88) eq_refl).
Defined.

(** C6 (as stated) fails: an item whose two identifiers are both [None] is
    not refused; the scheduler endpoint is requested with the text [None],
    and where the server answers that URL the item yields a record. *)
Lemma fetch_one_event_neither_identifier :
  fst (_fetch_one_event item_neither net_ok)
  = ["https://www.advancedeventsystems.com/api/landing/events/scheduler/None"]
  /\ raised (snd (_fetch_one_event item_neither net_ok)) = false.
Proof. split; reflexivity. Qed.

(** ** The phases *)

Lemma event_phase_from (completed : list (future EventRecord.t)) :
  forall (records : list EventRecord.t) (errors : list ErrorRecord.t),
    fold_left event_step completed (records, errors)
    = ((records ++ successes completed)%list,
       (errors ++ errors_of completed)%list).
Proof.
  induction completed as [| fut rest IH]; intros records errors.
  - simpl. rewrite !app_nil_r. reflexivity.
  - cbn [fold_left successes errors_of flat_map]. unfold event_step at 2.
    destruct (fut_result fut) as [rec | e]; rewrite IH; simpl;
      rewrite <- ?app_assoc; reflexivity.
Qed.

Lemma division_phase_from (completed : list (future (list DivisionRecord.t))) :
  forall (records : list DivisionRecord.t) (errors : list ErrorRecord.t),
    fold_left division_step completed (records, errors)
    = ((records ++ List.concat (filter nonempty (success_lists completed)))%list,
       (errors ++ errors_of completed)%list).
Proof.
  unfold success_lists.
  induction completed as [| fut rest IH]; intros records errors.
  - simpl. rewrite !app_nil_r. reflexivity.
  - cbn [fold_left successes errors_of flat_map]. unfold division_step at 2.
    destruct (fut_result fut) as [[| rec recs] | e]; rewrite IH; simpl;
      rewrite <- ?app_assoc; reflexivity.
Qed.

Lemma outcomes_length {A : Type} (l : list (future A)) :
  List.length (successes l) + List.length (errors_of l) = List.length l.
Proof.
  induction l as [| fut rest IH]; simpl; [reflexivity |].
  destruct (fut_result fut); simpl; lia.
Qed.

Lemma errors_of_length {A : Type} (l : list (future A)) :
  List.length (errors_of l) = List.length (filter failed l).
Proof.
  unfold failed.
  induction l as [| fut rest IH]; simpl; [reflexivity |].
  destruct (fut_result fut); simpl; lia.
Qed.

Lemma filter_length_perm {A : Type} (f : A -> bool) (l l' : list A) :
  Permutation l l' -> List.length (filter f l) = List.length (filter f l').
Proof.
  induction 1 as [| x l l' _ IH | x y l | l l' l'' _ IH1 _ IH2]; simpl.
  - reflexivity.
  - destruct (f x); simpl; congruence.
  - destruct (f x), (f y); reflexivity.
  - congruence.
Qed.

Lemma submit_all_length {A : Type} (fn : json -> Fetch A)
  (world : nat -> network) (events : list json) :
  forall first : nat, List.length (submit_all fn world first events) = List.length events.
Proof.
  induction events as [| event rest IH]; intros first; simpl;
    [reflexivity | rewrite IH; reflexivity].
Qed.

Lemma take_length (n : nat) (s : string) : String.length (Str.take n s) <= n.
Proof.
  revert s. induction n as [| n IH]; intros [| c s]; simpl; try lia.
  specialize (IH s). lia.
Qed.

Lemma errors_of_shape {A : Type} (l : list (future A)) :
  Forall (fun er => ErrorRecord.where_ er = "detail"
                    /\ String.length (ErrorRecord.item er) <= 500)
    (errors_of l).
Proof.
  induction l as [| fut rest IH]; simpl; [constructor |].
  destruct (fut_result fut) as [a | e]; simpl; [exact IH |].
  constructor; [| exact IH]. split; [reflexivity | apply take_length].
Qed.

(** C1: when the event phase has gone through the futures of [N] items, in
    whatever order they completed, every item has given exactly one outcome:
    the records are the results of the futures that returned, the errors are
    one [ErrorRecord] (phase ["detail"], message, item cut to 500
    characters) per future that raised, in the order of completion; a
    failure stops nothing and touches no other item's outcome, there are as
    many errors as failing items, and
    [len(events) + len(eventErrors) = N]. *)
Theorem event_phase_one_outcome_per_item :
  forall (world : nat -> network) (events : list json)
         (completed : list (future EventRecord.t)),
    Permutation completed (submit_all _fetch_one_event world 0 events) ->
    event_phase completed = (successes completed, errors_of completed)
    /\ List.length (fst (event_phase completed)) + List.length (snd (event_phase completed))
       = List.length events
    /\ List.length (snd (event_phase completed))
       = List.length (filter failed (submit_all _fetch_one_event world 0 events))
    /\ Forall (fun er => ErrorRecord.where_ er = "detail"
                         /\ String.length (ErrorRecord.item er) <= 500)
         (snd (event_phase completed)).
Proof.
  intros world events completed Hperm.
  assert (Hphase :
    event_phase completed = (successes completed, errors_of completed)).
  { unfold event_phase. rewrite event_phase_from. reflexivity. }
  rewrite Hphase. cbn [fst snd].
  split; [reflexivity |]. split; [| split].
  - rewrite outcomes_length, (Permutation_length Hperm).
    apply submit_all_length.
  - rewrite errors_of_length. apply filter_length_perm, Hperm.
  - apply errors_of_shape.
Qed.

Lemma event_phase_one_outcome_per_item_witness :
  let completed :=
    rev (submit_all _fetch_one_event world_flaky 0
           [item_event 1; item_event 2; item_scheduler]) in
  List.length (fst (event_phase completed)) + List.length (snd (event_phase completed)) = 3
  /\ List.length (snd (event_phase completed)) = 1.
Proof.
  destruct (event_phase_one_outcome_per_item world_flaky
              [item_event 1; item_event 2; item_scheduler]
              (rev (submit_all _fetch_one_event world_flaky 0
                      [item_event 1; item_event 2; item_scheduler]))
              (Permutation_sym (Permutation_rev _)))
    as (_ & Hsum & Herr & _).
  split; [exact Hsum | exact Herr].
Defined.

(** C9: the division phase appends the list of every future that returned
    a non-empty one and one error per future that raised; a future that
    returned the empty list changes neither [division_records] nor
    [division_errors]; hence [len(records) + len(errors)] need not be the
    number of items, as it is in the event phase. *)
Theorem division_phase_skips_empty_lists :
  (forall completed : list (future (list DivisionRecord.t)),
      division_phase completed
      = (List.concat (filter nonempty (success_lists completed)),
         errors_of completed))
  /\ (forall (before after : list (future (list DivisionRecord.t)))
             (fut : future (list DivisionRecord.t)),
        fut_result fut = Ok [] ->
        division_phase (before ++ fut :: after)%list
        = division_phase (before ++ after)%list)
  /\ (exists (world : nat -> network) (events : list json),
        let completed := submit_all _fetch_one_division world 0 events in
        List.length (fst (division_phase completed))
        + List.length (snd (division_phase completed))
        <> List.length events).
Proof.
  assert (Hphase : forall completed : list (future (list DivisionRecord.t)),
      division_phase completed
      = (List.concat (filter nonempty (success_lists completed)),
         errors_of completed)).
  { intros completed. unfold division_phase.
    rewrite division_phase_from. reflexivity. }
  split; [exact Hphase |]. split.
  - intros before after fut Hfut. rewrite !Hphase.
    unfold success_lists, successes, errors_of.
    rewrite !flat_map_app. simpl. rewrite Hfut.
    rewrite !filter_app. reflexivity.
  - exists (fun _ => net_ok), [JObj [("eventSchedulerId", JInt 88)]].
    simpl. discriminate.
Qed.

(** * Further properties of the code *)

(** ** Text of values *)

Lemma append_nonempty_l (a b : string) : a <> "" -> a ++ b <> "".
Proof. destruct a; [congruence | discriminate]. Qed.

Lemma append_nonempty_r (a b : string) : b <> "" -> a ++ b <> "".
Proof. destruct a; [trivial | discriminate]. Qed.

Lemma of_Z_nonempty (z : Z) : Str.of_Z z <> "".
Proof.
  unfold Str.of_Z. destruct (Z.to_int z) as [u | u]; simpl.
  - destruct u; discriminate.
  - discriminate.
Qed.

Lemma format_digits_nonempty (ds : string) (decpt : Z) :
  Flt.format_digits ds decpt <> "".
Proof.
  unfold Flt.format_digits.
  destruct ((decpt <=? -4)%Z || (16 <? decpt)%Z).
  - apply append_nonempty_r, append_nonempty_r. discriminate.
  - destruct (decpt <=? 0)%Z; [discriminate |].
    destruct (Z.of_nat (String.length ds) <=? decpt)%Z.
    + apply append_nonempty_r, append_nonempty_r. discriminate.
    + apply append_nonempty_r. discriminate.
Qed.

Lemma flt_repr_nonempty (f : spec_float) : Flt.repr f <> "".
Proof.
  destruct f as [s | s | | s m e]; simpl.
  - apply append_nonempty_r. discriminate.
  - apply append_nonempty_r. discriminate.
  - discriminate.
  - destruct (Flt.digits m e) as [ds decpt].
    apply append_nonempty_r, format_digits_nonempty.
Qed.

(** [str] of a truthy value is never the empty string. *)
Lemma str_nonempty (v : json) : Py.truthy v = true -> Py.str v <> "".
Proof.
  destruct v as [| b | n | f | s | items | fields]; simpl; intros H.
  - discriminate.
  - destruct b; discriminate.
  - apply of_Z_nonempty.
  - apply flt_repr_nonempty.
  - destruct s; [discriminate H | discriminate].
  - discriminate.
  - discriminate.
Qed.

Lemma str_or_empty (v : json) :
  Py.str (Py.or v empty) = "" <-> Py.truthy v = false.
Proof.
  unfold Py.or. destruct (Py.truthy v) eqn:E.
  - split; [| discriminate]. intros H. exfalso. exact (str_nonempty v E H).
  - split; reflexivity.
Qed.

(** ** More on the normalizer *)

(** X1: in the record of [parse_event_api], [event_id] is the empty string
    exactly when the payload's [eventId] is absent or falsy (so also for the
    number 0); for a truthy [eventId] it is [str] of it, and [event_url] is
    the events page of that text. *)
Theorem event_id_empty_iff_source_falsy :
  forall (fields : list (string * json)) (rec : EventRecord.t),
    parse_event_api (JObj fields) = Ok rec ->
    (EventRecord.event_id rec = ""
     <-> Py.truthy (Py.dict_get fields "eventId") = false)
    /\ (Py.truthy (Py.dict_get fields "eventId") = true ->
        EventRecord.event_id rec = Py.str (Py.dict_get fields "eventId")
        /\ EventRecord.event_url rec
           = "https://www.advancedeventsystems.com/events/"
             ++ Py.str (Py.dict_get fields "eventId")).
Proof.
  intros fields rec Hrec.
  apply parse_event_api_inv in Hrec
    as (fields' & start_date & end_date & Heq & _ & _ & _ & ->).
  injection Heq as <-. cbn [EventRecord.event_id EventRecord.event_url].
  split; [apply str_or_empty |].
  intros Ht. rewrite (or_truthy _ _ Ht). split; [reflexivity |].
  destruct (Py.str (Py.dict_get fields "eventId")) eqn:E; [| reflexivity].
  exfalso. exact (str_nonempty _ Ht E).
Qed.

Lemma event_id_empty_iff_source_falsy_witness :
  exists rec : EventRecord.t,
    parse_event_api (JObj [("eventId", JInt 0); ("name", JStr "Fall Open")])
    = Ok rec
    /\ EventRecord.event_id rec = "".
Proof.
  destruct (parse_event_api_shaped
              [("eventId", JInt 0); ("name", JStr "Fall Open")] eq_refl)
    as [rec Hrec].
  exists rec. split; [exact Hrec |].
  apply (event_id_empty_iff_source_falsy _ rec Hrec). reflexivity.
Defined.

(** X2: whenever [parse_event_api] gives a non-empty [event_id], the
    [event_url] it builds inline is the one that the helper
    [_event_url_from_id] computes from that [event_id]. *)
Theorem event_url_is_event_url_from_id :
  forall (data : json) (rec : EventRecord.t),
    parse_event_api data = Ok rec ->
    EventRecord.event_id rec <> "" ->
    EventRecord.event_url rec
    = _event_url_from_id (JStr (EventRecord.event_id rec)).
Proof.
  intros data rec Hrec.
  apply parse_event_api_inv in Hrec
    as (fields & start_date & end_date & _ & _ & _ & _ & ->).
  cbn [EventRecord.event_id EventRecord.event_url].
  destruct (Py.str (Py.or (Py.dict_get fields "eventId") empty)) as [| c s].
  - intros H. contradiction.
  - intros _. reflexivity.
Qed.

Lemma event_url_is_event_url_from_id_witness :
  exists rec : EventRecord.t,
    parse_event_api ex_event = Ok rec
    /\ EventRecord.event_url rec
       = _event_url_from_id (JStr (EventRecord.event_id rec)).
Proof.
  eexists. split; [reflexivity |].
  apply (event_url_is_event_url_from_id ex_event _ eq_refl). discriminate.
Defined.

(** X4: [host] is the payload's [hostName] whenever that is truthy, whatever
    [bossOrganizationName] holds; it is [bossOrganizationName] when only that
    one is truthy, and the empty string when neither is. *)
Theorem host_prefers_host_name :
  forall (fields : list (string * json)) (rec : EventRecord.t),
    parse_event_api (JObj fields) = Ok rec ->
    (Py.truthy (Py.dict_get fields "hostName") = true ->
     EventRecord.host rec = Py.dict_get fields "hostName")
    /\ (Py.truthy (Py.dict_get fields "hostName") = false ->
        Py.truthy (Py.dict_get fields "bossOrganizationName") = true ->
        EventRecord.host rec = Py.dict_get fields "bossOrganizationName")
    /\ (Py.truthy (Py.dict_get fields "hostName") = false ->
        Py.truthy (Py.dict_get fields "bossOrganizationName") = false ->
        EventRecord.host rec = JStr "").
Proof.
  intros fields rec Hrec.
  apply parse_event_api_inv in Hrec
    as (fields' & start_date & end_date & Heq & _ & _ & _ & ->).
  injection Heq as <-. cbn [EventRecord.host].
  repeat split.
  - intros H. apply or_truthy, H.
  - intros H1 H2. rewrite (or_falsy _ _ H1). apply or_truthy, H2.
  - intros H1 H2. rewrite (or_falsy _ _ H1). apply or_falsy, H2.
Qed.

Lemma host_prefers_host_name_witness :
  exists rec : EventRecord.t,
    parse_event_api ex_event = Ok rec
    /\ EventRecord.host rec = JStr "Capital Region".
Proof.
  eexists. split; [reflexivity |].
  destruct (host_prefers_host_name
              [("eventId", JInt 31452); ("name", JStr "Spring Classic");
               ("affiliation", JObj [("description", JStr "USAV")]);
               ("eventType", JNull);
               ("bossOrganizationName", JStr "Capital Region");
               ("address", ex_address);
               ("startDate", JStr "2024-03-01T00:00:00Z");
               ("endDate", JStr "2024-03-02T00:00:00")] _ eq_refl)
    as (_ & H & _).
  exact (H eq_refl eq_refl).
Defined.

Lemma lstrip_all (p : ascii -> bool) (s : string) :
  Str.all p s = true -> Str.lstrip_by p s = "".
Proof.
  induction s as [| a s IH]; simpl; [reflexivity |].
  destruct (p a); [exact IH | discriminate].
Qed.

Lemma lstrip_app (p : ascii -> bool) (s t : string) :
  Str.lstrip_by p (s ++ t)
  = if Str.all p s then Str.lstrip_by p t else Str.lstrip_by p s ++ t.
Proof.
  induction s as [| a s IH]; simpl; [reflexivity |].
  destruct (p a); [exact IH | reflexivity].
Qed.

Lemma rstrip_app_stripped (p : ascii -> bool) (s : string) (c : ascii) :
  p c = true -> Str.rstrip_by p (s ++ String c "") = Str.rstrip_by p s.
Proof.
  intros Hc. induction s as [| a s IH]; simpl.
  - rewrite Hc. reflexivity.
  - rewrite IH. reflexivity.
Qed.

Lemma strip_app_space (s : string) : Str.strip (s ++ " ") = Str.strip s.
Proof.
  unfold Str.strip. rewrite lstrip_app.
  destruct (Str.all Str.isspace s) eqn:E.
  - rewrite (lstrip_all _ _ E). reflexivity.
  - apply rstrip_app_stripped. reflexivity.
Qed.

Lemma first_lstrip_by (p : ascii -> bool) (s : string) (c : ascii) :
  first_char (Str.lstrip_by p s) = Some c -> p c = false.
Proof.
  induction s as [| a s IH]; simpl; [discriminate |].
  destruct (p a) eqn:E; [exact IH |].
  simpl. intros H. injection H as <-. exact E.
Qed.

Lemma first_rstrip_by (p : ascii -> bool) (s : string) (c : ascii) :
  first_char (Str.rstrip_by p s) = Some c -> first_char s = Some c.
Proof.
  destruct s as [| a s]; simpl; [discriminate |].
  destruct (Str.rstrip_by p s); [destruct (p a) |]; simpl; congruence.
Qed.

(** A stripped string neither starts nor ends with whitespace. *)
Lemma strip_ends (s : string) (c : ascii) :
  first_char (Str.strip s) = Some c \/ Str.last (Str.strip s) = Some c ->
  Str.isspace c = false.
Proof.
  unfold Str.strip. intros [H | H].
  - apply first_rstrip_by in H. exact (first_lstrip_by _ _ _ H).
  - exact (last_rstrip_by _ _ _ H).
Qed.

(** X3: [tournament_type] never starts or ends with whitespace.  When only
    one of the two descriptions ([affiliation.description],
    [eventType.description]) is truthy it is that description stripped, with
    no stray joining space; when neither is, it is the empty string. *)
Theorem tournament_type_joins_without_stray_space :
  forall (fields : list (string * json)) (rec : EventRecord.t),
    parse_event_api (JObj fields) = Ok rec ->
    let aff := Py.field (Py.dict_get fields "affiliation") "description" in
    let et := Py.field (Py.dict_get fields "eventType") "description" in
    (forall c : ascii,
        first_char (EventRecord.tournament_type rec) = Some c
        \/ Str.last (EventRecord.tournament_type rec) = Some c ->
        Str.isspace c = false)
    /\ (Py.truthy aff = true -> Py.truthy et = false ->
        EventRecord.tournament_type rec = Str.strip (Py.str aff))
    /\ (Py.truthy aff = false -> Py.truthy et = true ->
        EventRecord.tournament_type rec = Str.strip (Py.str et))
    /\ (Py.truthy aff = false -> Py.truthy et = false ->
        EventRecord.tournament_type rec = "").
Proof.
  intros fields rec Hrec aff et.
  apply parse_event_api_inv in Hrec
    as (fields' & start_date & end_date & Heq & _ & _ & _ & ->).
  injection Heq as <-. cbn [EventRecord.tournament_type]. fold aff et.
  repeat split.
  - intros c.
    destruct (Py.truthy (Py.or (Py.or aff empty) (Py.or et empty))).
    + apply strip_ends.
    + intros [H | H]; discriminate H.
  - intros Ha He.
    rewrite (or_truthy _ _ Ha), (or_falsy _ _ He), (or_truthy _ _ Ha), Ha.
    apply strip_app_space.
  - intros Ha He.
    rewrite (or_falsy _ _ Ha), (or_truthy _ _ He).
    rewrite (or_falsy empty et eq_refl), He. reflexivity.
  - intros Ha He.
    rewrite (or_falsy _ _ Ha), (or_falsy _ _ He). reflexivity.
Qed.

Lemma tournament_type_joins_without_stray_space_witness :
  exists rec : EventRecord.t,
    parse_event_api ex_event = Ok rec
    /\ EventRecord.tournament_type rec = "USAV".
Proof.
  eexists. split; [reflexivity |].
  destruct (tournament_type_joins_without_stray_space
              [("eventId", JInt 31452); ("name", JStr "Spring Classic");
               ("affiliation", JObj [("description", JStr "USAV")]);
               ("eventType", JNull);
               ("bossOrganizationName", JStr "Capital Region");
               ("address", ex_address);
               ("startDate", JStr "2024-03-01T00:00:00Z");
               ("endDate", JStr "2024-03-02T00:00:00")] _ eq_refl)
    as (_ & H & _).
  exact (H eq_refl eq_refl).
Defined.

(** ** Dates *)














(** ** Divisions *)

Lemma parse_division_api_non_dict (data : json) :
  is_dict data = false ->
  parse_division_api data = Raise (AttributeError (Py.type_name data) "get").
Proof. destruct data; try reflexivity. discriminate. Qed.

Lemma str_or_zero_nonempty (v : json) : Py.str (Py.or v (JStr "0")) <> "".
Proof.
  unfold Py.or. destruct (Py.truthy v) eqn:E.
  - apply str_nonempty, E.
  - discriminate.
Qed.

(** X6: [parse_division_api] returns a record on every dict; its
    [entry_fee] is never the empty string, and each other field is the
    empty string exactly when the payload's value for it is absent or
    falsy (a maximum of 0 teams is rendered as no text, not as ["0"]). *)
Theorem division_fields_empty_iff_falsy :
  forall fields : list (string * json),
    exists rec : DivisionRecord.t,
      parse_division_api (JObj fields) = Ok rec
      /\ DivisionRecord.entry_fee rec <> ""
      /\ (DivisionRecord.description rec = ""
          <-> Py.truthy (Py.dict_get fields "description") = false)
      /\ (DivisionRecord.event_division_assignment_id rec = ""
          <-> Py.truthy (Py.dict_get fields "eventDivisionAssignmentId") = false)
      /\ (DivisionRecord.event_id rec = ""
          <-> Py.truthy (Py.dict_get fields "eventId") = false)
      /\ (DivisionRecord.maximum_teams rec = ""
          <-> Py.truthy (Py.dict_get fields "maximumTeams") = false).
Proof.
  intros fields. eexists. split; [apply parse_division_api_dict |].
  cbn [DivisionRecord.entry_fee DivisionRecord.description
       DivisionRecord.event_division_assignment_id DivisionRecord.event_id
       DivisionRecord.maximum_teams].
  split; [apply str_or_zero_nonempty |].
  repeat split; apply str_or_empty.
Qed.

Lemma parse_divisions_cons (d : json) (rest : list json) :
  parse_divisions (d :: rest)
  = (rec <- parse_division_api d ;;
     recs <- parse_divisions rest ;;
     Ok (rec :: recs))%result.
Proof. reflexivity. Qed.

(** X7: the divisions of one event are normalized all or none.  When every
    element of the list is a dict, the result has one record per element, in
    order, each the [parse_division_api] of its element; when some element
    is not a dict, the whole list raises [AttributeError] and no record
    survives. *)
Theorem parse_divisions_all_or_nothing :
  forall divisions : list json,
    (forallb is_dict divisions = true ->
     exists recs : list DivisionRecord.t,
       parse_divisions divisions = Ok recs
       /\ Forall2 (fun d rec => parse_division_api d = Ok rec) divisions recs)
    /\ (forallb is_dict divisions = false ->
        exists ty : string,
          parse_divisions divisions = Raise (AttributeError ty "get")).
Proof.
  induction divisions as [| d rest [IHok IHbad]].
  - split; [| discriminate]. intros _. exists []. split; [reflexivity | constructor].
  - rewrite parse_divisions_cons. cbn [forallb]. split.
    + intros H. apply andb_prop in H as [Hd Hrest].
      destruct d as [| | | | | | fields]; try discriminate Hd.
      destruct (IHok Hrest) as (recs & Hrecs & Hall).
      rewrite parse_division_api_dict, bind_Ok, Hrecs, bind_Ok.
      eexists. split; [reflexivity |].
      constructor; [apply parse_division_api_dict | exact Hall].
    + intros H. destruct (is_dict d) eqn:Hd.
      * destruct d as [| | | | | | fields]; try discriminate Hd.
        destruct (IHbad H) as [ty Hty].
        rewrite parse_division_api_dict, bind_Ok, Hty. exists ty. reflexivity.
      * rewrite (parse_division_api_non_dict d Hd).
        exists (Py.type_name d). reflexivity.
Qed.

Lemma parse_divisions_all_or_nothing_witness :
  (exists recs : list DivisionRecord.t,
      parse_divisions ex_divisions = Ok recs
      /\ Forall2 (fun d rec => parse_division_api d = Ok rec) ex_divisions recs)
  /\ (exists ty : string,
        parse_divisions (ex_divisions ++ [JStr "18 Open"])%list
        = Raise (AttributeError ty "get")).
Proof.
  split.
  - exact (proj1 (parse_divisions_all_or_nothing ex_divisions) eq_refl).
  - exact (proj2 (parse_divisions_all_or_nothing
                    (ex_divisions ++ [JStr "18 Open"])%list) eq_refl).
Defined.

(** ** More on the detail fetcher *)

Lemma status_ok (url : string) (status : Z) (reason : string) (b : body) :
  error_status status = false ->
  raise_for_status url (status, reason, b) = Ok tt.
Proof.
  unfold error_status, raise_for_status.
  destruct (Z.leb_spec 400 status), (Z.ltb_spec status 500),
    (Z.ltb_spec status 600), (Z.leb_spec 500 status);
    cbn [andb]; intros Hs; try discriminate Hs; try reflexivity; lia.
Qed.

Lemma status_error (url : string) (status : Z) (reason : string) (b : body) :
  error_status status = true ->
  exists msg : string,
    raise_for_status url (status, reason, b) = Raise (HTTPError msg).
Proof.
  unfold error_status, raise_for_status.
  destruct (Z.leb_spec 400 status), (Z.ltb_spec status 500),
    (Z.ltb_spec status 600), (Z.leb_spec 500 status);
    cbn [andb]; intros Hs; try discriminate Hs;
    try (eexists; reflexivity); lia.
Qed.

Lemma fetch_one_event_cases (item : json) (net : network) :
  (exists e : exn, _fetch_one_event item net = ([], Raise e))
  \/ (exists url : string,
        _fetch_one_event item net = ([url], detail_of_reply url (net url))).
Proof.
  unfold _fetch_one_event.
  destruct (Py.getitem item "eventId") as [event_id | e].
  - rewrite fbind_lift_Ok. destruct (is_none event_id).
    + rewrite fbind_assoc.
      destruct (Py.getitem item "eventSchedulerId") as [sid | e].
      * rewrite fbind_lift_Ok, fbind_fret. right. eexists.
        apply fetch_one_event_at.
      * left. exists e. reflexivity.
    + rewrite fbind_fret. right. eexists. apply fetch_one_event_at.
  - left. exists e. reflexivity.
Qed.

Lemma fetch_one_division_tail (url : string) (net : network) :
  (r <~ sess_get url ;;
   _ <~ lift (raise_for_status url r) ;;
   payload <~ lift (response_json r) ;;
   let divisions := Py.or (unwrap_value payload) (JArr []) in
   ds <~ lift (Py.iter divisions) ;;
   lift (parse_divisions ds))%fetch net
  = ([url], divisions_of_reply url (net url)).
Proof.
  unfold fbind, sess_get, lift, divisions_of_reply.
  destruct (net url) as [cls msg | status reason b]; [reflexivity |].
  destruct (raise_for_status url (status, reason, b)) as [[] | e];
    [| reflexivity].
  cbn [bind].
  destruct (response_json (status, reason, b)) as [payload | e];
    [| reflexivity].
  cbn [bind].
  destruct (Py.iter (Py.or (unwrap_value payload) (JArr []))) as [ds | e];
    reflexivity.
Qed.

Lemma fetch_one_division_cases (item : json) (net : network) :
  (exists r : result (list DivisionRecord.t),
      _fetch_one_division item net = ([], r))
  \/ (exists url : string,
        _fetch_one_division item net
        = ([url], divisions_of_reply url (net url))).
Proof.
  unfold _fetch_one_division.
  destruct (Py.get item "eventId") as [event_id | e].
  - rewrite fbind_lift_Ok. destruct (is_none event_id).
    + left. eexists. reflexivity.
    + destruct (Py.int event_id) as [n | e].
      * rewrite fbind_lift_Ok. right. eexists. apply fetch_one_division_tail.
      * left. eexists. reflexivity.
  - left. eexists. reflexivity.
Qed.

Lemma fetch_one_division_at (net : network) (fields : list (string * json))
  (event_id : json) :
  Py.lookup fields "eventId" = Some event_id ->
  event_id <> JNull ->
  _fetch_one_division (JObj fields) net
  = match Py.int event_id with
    | Ok n =>
        ([divisions_endpoint n],
         divisions_of_reply (divisions_endpoint n) (net (divisions_endpoint n)))
    | Raise e => ([], Raise e)
    end.
Proof.
  intros Hid Hnn. unfold _fetch_one_division.
  rewrite get_dict, (dict_get_lookup _ _ _ Hid), fbind_lift_Ok.
  destruct event_id; try contradiction; cbn [is_none];
    match goal with
    | |- context [Py.int ?v] => destruct (Py.int v) as [k | err]
    end;
    try (rewrite fbind_lift_Ok; apply fetch_one_division_tail);
    reflexivity.
Qed.

(** X8: neither detail fetch ever issues more than one GET, whatever the
    item and whatever the network answers; and without a GET the event
    fetch has raised. *)
Theorem detail_fetch_requests_at_most_once :
  forall (item : json) (net : network),
    List.length (fst (_fetch_one_event item net)) <= 1
    /\ List.length (fst (_fetch_one_division item net)) <= 1
    /\ (fst (_fetch_one_event item net) = [] ->
        raised (snd (_fetch_one_event item net)) = true).
Proof.
  intros item net. repeat split.
  - destruct (fetch_one_event_cases item net) as [[e ->] | [url ->]];
      simpl; lia.
  - destruct (fetch_one_division_cases item net) as [[r ->] | [url ->]];
      simpl; lia.
  - destruct (fetch_one_event_cases item net) as [[e ->] | [url ->]];
      simpl; [reflexivity | discriminate].
Qed.

(** X9: when [_fetch_one_event] has requested a URL, it returns a record
    exactly when the reply to that URL is a response whose status is outside
    400..599 and whose body is JSON that [parse_event_api] accepts, and the
    record is the normalized body; a status in 400..599 makes it raise
    [HTTPError] whatever the body holds. *)
Theorem fetch_one_event_succeeds_iff :
  forall (item : json) (net : network) (url : string),
    fst (_fetch_one_event item net) = [url] ->
    (forall rec : EventRecord.t,
        snd (_fetch_one_event item net) = Ok rec
        <-> exists (status : Z) (reason : string) (data : json),
            net url = Response status reason (JsonBody data)
            /\ error_status status = false
            /\ parse_event_api data = Ok rec)
    /\ (forall (status : Z) (reason : string) (b : body),
          net url = Response status reason b ->
          error_status status = true ->
          exists msg : string,
            snd (_fetch_one_event item net) = Raise (HTTPError msg)).
Proof.
  intros item net url Hreq.
  destruct (fetch_one_event_cases item net) as [[e He] | [url' He]];
    rewrite He in Hreq |- *; simpl in Hreq; [discriminate |].
  injection Hreq as ->. cbn [snd]. unfold detail_of_reply. split.
  - intros rec. split.
    + destruct (net url) as [cls msg | status reason b]; [discriminate |].
      destruct (error_status status) eqn:Es.
      * destruct (status_error url status reason b Es) as [msg ->].
        discriminate.
      * rewrite (status_ok url status reason b Es), bind_Ok.
        destruct b as [data | msg]; [| discriminate].
        unfold response_json. cbn [snd]. rewrite bind_Ok.
        intros H. exists status, reason, data. auto.
    + intros (status & reason & data & -> & Es & Hrec).
      rewrite (status_ok url status reason _ Es), bind_Ok.
      unfold response_json. cbn [snd]. rewrite bind_Ok. exact Hrec.
  - intros status reason b -> Es.
    destruct (status_error url status reason b Es) as [msg ->].
    exists msg. reflexivity.
Qed.

Lemma fetch_one_event_succeeds_iff_witness :
  exists rec : EventRecord.t,
    snd (_fetch_one_event (item_event 31452) net_ok) = Ok rec.
Proof.
  destruct (parse_event_api_shaped
              [("eventId", JInt 31452); ("name", JStr "Spring Classic");
               ("affiliation", JObj [("description", JStr "USAV")]);
               ("eventType", JNull);
               ("bossOrganizationName", JStr "Capital Region");
               ("address", ex_address);
               ("startDate", JStr "2024-03-01T00:00:00Z");
               ("endDate", JStr "2024-03-02T00:00:00")] eq_refl)
    as [rec Hrec].
  exists rec.
  apply (proj1 (fetch_one_event_succeeds_iff (item_event 31452) net_ok
                  "https://www.advancedeventsystems.com/api/landing/events/31452"
                  eq_refl)).
  exists 200%Z, "OK", ex_event. repeat split. exact Hrec.
Defined.

(** X10: [_fetch_one_division] reads the two shapes of the reply alike: a
    body that is the bare array of divisions and a body that is a dict
    holding that array under ["value"] give the same request and the same
    result. *)
Theorem divisions_bare_or_wrapped :
  forall (net1 net2 : network) (fields : list (string * json))
         (event_id : json) (n status : Z) (reason : string)
         (wrapper : list (string * json)) (ds : list json),
    Py.lookup fields "eventId" = Some event_id ->
    event_id <> JNull ->
    Py.int event_id = Ok n ->
    net1 (divisions_endpoint n) = Response status reason (JsonBody (JArr ds)) ->
    net2 (divisions_endpoint n)
    = Response status reason (JsonBody (JObj wrapper)) ->
    Py.lookup wrapper "value" = Some (JArr ds) ->
    _fetch_one_division (JObj fields) net1
    = _fetch_one_division (JObj fields) net2.
Proof.
  intros net1 net2 fields event_id n status reason wrapper ds
    Hid Hnn Hint H1 H2 Hval.
  rewrite !(fetch_one_division_at _ fields event_id Hid Hnn), Hint, H1, H2.
  f_equal. unfold divisions_of_reply.
  destruct (raise_for_status (divisions_endpoint n) _) as [[] | e];
    [| reflexivity].
  cbn [bind response_json snd unwrap_value]. rewrite Hval. reflexivity.
Qed.

Lemma divisions_bare_or_wrapped_witness :
  _fetch_one_division (item_event 31452) net_divisions
  = _fetch_one_division (item_event 31452) net_divisions_wrapped.
Proof.
  exact (divisions_bare_or_wrapped net_divisions net_divisions_wrapped
           [("eventId", JInt 31452)] (JInt 31452) 31452 200 "OK"
           [("value", JArr ex_divisions)] ex_divisions
           eq_refl ltac:(discriminate) eq_refl eq_refl eq_refl eq_refl).
Defined.

(** X11: a reply whose payload (after the unwrapping of ["value"]) is falsy,
    as [null], [[]], [{}] or [{"value": null}] are, gives the empty list of
    divisions and no error, provided the status is outside 400..599. *)
Theorem divisions_falsy_payload_is_empty :
  forall (net : network) (fields : list (string * json)) (event_id : json)
         (n status : Z) (reason : string) (payload : json),
    Py.lookup fields "eventId" = Some event_id ->
    event_id <> JNull ->
    Py.int event_id = Ok n ->
    net (divisions_endpoint n) = Response status reason (JsonBody payload) ->
    error_status status = false ->
    Py.truthy (unwrap_value payload) = false ->
    _fetch_one_division (JObj fields) net = ([divisions_endpoint n], Ok []).
Proof.
  intros net fields event_id n status reason payload Hid Hnn Hint Hnet Hs Hp.
  rewrite (fetch_one_division_at _ fields event_id Hid Hnn), Hint, Hnet.
  f_equal. unfold divisions_of_reply.
  rewrite (status_ok _ _ _ _ Hs), bind_Ok.
  cbn [response_json snd]. rewrite bind_Ok, (or_falsy _ _ Hp). reflexivity.
Qed.

Lemma divisions_falsy_payload_is_empty_witness :
  _fetch_one_division (item_event 31452)
    (fun _ => Response 200 "OK" (JsonBody (JObj [("value", JNull)])))
  = (["https://www.advancedeventsystems.com/api/landing/events/31452/divisions"],
     Ok []).
Proof.
  exact (divisions_falsy_payload_is_empty
           (fun _ => Response 200 "OK" (JsonBody (JObj [("value", JNull)])))
           [("eventId", JInt 31452)] (JInt 31452) 31452 200 "OK"
           (JObj [("value", JNull)])
           eq_refl ltac:(discriminate) eq_refl eq_refl eq_refl eq_refl).
Defined.



(** X13: an item that is a dict without the key [eventId] is treated
    differently by the two fetches: [_fetch_one_event] raises
    [KeyError('eventId')], even when the item has an [eventSchedulerId],
    while [_fetch_one_division] returns the empty list; neither requests
    anything. *)
Theorem item_without_event_id_key :
  forall (net : network) (fields : list (string * json)),
    Py.lookup fields "eventId" = None ->
    _fetch_one_event (JObj fields) net = ([], Raise (KeyError "eventId"))
    /\ _fetch_one_division (JObj fields) net = ([], Ok []).
Proof.
  intros net fields Hid. split.
  - unfold _fetch_one_event. cbn [Py.getitem]. rewrite Hid. reflexivity.
  - unfold _fetch_one_division.
    rewrite get_dict, (dict_get_missing _ _ Hid). reflexivity.
Qed.

Lemma item_without_event_id_key_witness :
  _fetch_one_event (JObj [("eventSchedulerId", JInt 88)]) net_ok
  = ([], Raise (KeyError "eventId"))
  /\ _fetch_one_division (JObj [("eventSchedulerId", JInt 88)]) net_ok
     = ([], Ok []).
Proof.
  exact (item_without_event_id_key net_ok [("eventSchedulerId", JInt 88)]
           eq_refl).
Defined.

(** ** More on the phases *)

Lemma event_phase_eq (completed : list (future EventRecord.t)) :
  event_phase completed = (successes completed, errors_of completed).
Proof. unfold event_phase. rewrite event_phase_from. reflexivity. Qed.

Lemma concat_filter_nonempty {A : Type} (l : list (list A)) :
  List.concat (filter nonempty l) = List.concat l.
Proof.
  induction l as [| x l IH]; [reflexivity |].
  destruct x; simpl; rewrite IH; reflexivity.
Qed.

Lemma division_phase_eq (completed : list (future (list DivisionRecord.t))) :
  division_phase completed
  = (List.concat (successes completed), errors_of completed).
Proof.
  unfold division_phase. rewrite division_phase_from.
  unfold success_lists. rewrite concat_filter_nonempty. reflexivity.
Qed.

Lemma concat_perm {A : Type} (l l' : list (list A)) :
  Permutation l l' -> Permutation (List.concat l) (List.concat l').
Proof.
  intros H. rewrite <- (map_id l), <- (map_id l'), <- !flat_map_concat_map.
  apply Permutation_flat_map, H.
Qed.

Lemma successes_perm {A : Type} (l l' : list (future A)) :
  Permutation l l' -> Permutation (successes l) (successes l').
Proof. apply Permutation_flat_map. Qed.

Lemma errors_of_perm {A : Type} (l l' : list (future A)) :
  Permutation l l' -> Permutation (errors_of l) (errors_of l').
Proof. apply Permutation_flat_map. Qed.

(** X14: the order in which the futures complete changes the result lists
    of a phase only by a rearrangement: two runs of a phase over the same
    futures, completed in different orders, give the same records and the
    same errors up to order. *)
Theorem phase_results_up_to_order :
  forall (ce ce' : list (future EventRecord.t))
         (cd cd' : list (future (list DivisionRecord.t))),
    Permutation ce ce' ->
    Permutation cd cd' ->
    Permutation (fst (event_phase ce)) (fst (event_phase ce'))
    /\ Permutation (snd (event_phase ce)) (snd (event_phase ce'))
    /\ Permutation (fst (division_phase cd)) (fst (division_phase cd'))
    /\ Permutation (snd (division_phase cd)) (snd (division_phase cd')).
Proof.
  intros ce ce' cd cd' He Hd.
  rewrite !event_phase_eq, !division_phase_eq. cbn [fst snd].
  split; [| split; [| split]].
  - apply successes_perm, He.
  - apply errors_of_perm, He.
  - apply concat_perm, successes_perm, Hd.
  - apply errors_of_perm, Hd.
Qed.

Lemma phase_results_up_to_order_witness :
  let se := submit_all _fetch_one_event world_flaky 0
              [item_event 1; item_event 2; item_scheduler] in
  let sd := submit_all _fetch_one_division (fun _ => net_divisions) 0
              [item_event 1; item_event 2; item_scheduler] in
  Permutation (fst (event_phase (rev se))) (fst (event_phase se))
  /\ Permutation (fst (division_phase (rev sd))) (fst (division_phase sd)).
Proof.
  intros se sd.
  destruct (phase_results_up_to_order (rev se) se (rev sd) sd
              (Permutation_sym (Permutation_rev se))
              (Permutation_sym (Permutation_rev sd)))
    as (H1 & _ & H2 & _).
  split; assumption.
Defined.

(** X15: after the division phase over [N] items, in whatever order the
    futures completed, [division_errors] has one entry per item whose fetch
    raised, so at most [N], and [division_records] has as many entries as
    the successful fetches returned divisions in all. *)
Theorem division_phase_counts :
  forall (world : nat -> network) (events : list json)
         (completed : list (future (list DivisionRecord.t))),
    Permutation completed (submit_all _fetch_one_division world 0 events) ->
    List.length (snd (division_phase completed))
    = List.length (filter failed (submit_all _fetch_one_division world 0 events))
    /\ List.length (snd (division_phase completed)) <= List.length events
    /\ List.length (fst (division_phase completed))
       = records_returned (submit_all _fetch_one_division world 0 events).
Proof.
  intros world events completed Hperm.
  rewrite division_phase_eq. cbn [fst snd]. split; [| split].
  - rewrite errors_of_length. apply filter_length_perm, Hperm.
  - pose proof (outcomes_length completed) as H.
    rewrite (Permutation_length Hperm), submit_all_length in H. lia.
  - unfold records_returned. rewrite length_concat.
    apply Permutation_list_sum, Permutation_map, successes_perm, Hperm.
Qed.

Lemma division_phase_counts_witness :
  let completed :=
    rev (submit_all _fetch_one_division (fun _ => net_divisions) 0
           [item_event 1; item_event 2; item_scheduler]) in
  List.length (fst (division_phase completed)) = 4
  /\ List.length (snd (division_phase completed)) = 0.
Proof.
  intros completed.
  destruct (division_phase_counts (fun _ => net_divisions)
              [item_event 1; item_event 2; item_scheduler] completed
              (Permutation_sym (Permutation_rev _)))
    as (Herr & _ & Hrec).
  split; [exact Hrec | exact Herr].
Defined.

Lemma submit_division_no_id (net : network) (fields : list (string * json)) :
  Py.dict_get fields "eventId" = JNull ->
  submit _fetch_one_division net (JObj fields)
  = mk_future (JObj fields) [] (Ok []).
Proof.
  intros H. unfold submit, _fetch_one_division.
  rewrite get_dict, H. reflexivity.
Qed.

(** X16: over a catalog in which no item has an event identifier (every
    item is a dict whose [eventId] is absent or [None]), the division phase
    requests nothing from the network and ends with no record and no
    error. *)
Theorem division_phase_of_scheduler_only_catalog :
  forall (world : nat -> network) (events : list json)
         (completed : list (future (list DivisionRecord.t))),
    Forall (fun item => exists fields : list (string * json),
                item = JObj fields /\ Py.dict_get fields "eventId" = JNull)
      events ->
    Permutation completed (submit_all _fetch_one_division world 0 events) ->
    division_phase completed = ([], [])
    /\ flat_map fut_requests completed = [].
Proof.
  intros world events completed Hall.
  assert (Hsub : forall first : nat,
             Forall (fun fut => fut_requests fut = [] /\ fut_result fut = Ok [])
               (submit_all _fetch_one_division world first events)).
  { induction Hall as [| item rest (fields & -> & Hid) _ IH]; intros first;
      cbn [submit_all]; constructor.
    - rewrite (submit_division_no_id _ _ Hid). split; reflexivity.
    - apply IH. }
  intros Hperm.
  pose proof (Permutation_Forall (Permutation_sym Hperm) (Hsub 0)) as Hc.
  clear Hperm Hsub Hall. rewrite division_phase_eq.
  induction Hc as [| fut rest [Hreq Hres] _ IH]; [split; reflexivity |].
  unfold successes, errors_of in *. cbn [flat_map].
  rewrite Hreq, Hres. cbn [List.concat app].
  injection (proj1 IH) as H1 H2. rewrite H1, H2, (proj2 IH).
  split; reflexivity.
Qed.

Lemma division_phase_of_scheduler_only_catalog_witness :
  division_phase
    (rev (submit_all _fetch_one_division (fun _ => net_ok) 0
            [item_scheduler; item_neither]))
  = ([], []).
Proof.
  refine (proj1 (division_phase_of_scheduler_only_catalog (fun _ => net_ok)
                   [item_scheduler; item_neither] _ _
                   (Permutation_sym (Permutation_rev _)))).
  repeat constructor; eexists; split; reflexivity.
Defined.

(** ** The catalog fetcher and [run] *)

Lemma catalog_get (url key : string) (net : network) :
  (request <~ requests_get url ;;
   api_events <~ lift (response_json request) ;;
   lift (Py.getitem api_events key))%fetch net
  = ([url],
     match net url with
     | Failed cls msg => Raise (RequestException cls msg)
     | Response status reason b =>
         (data <- response_json (status, reason, b) ;; Py.getitem data key)%result
     end).
Proof.
  unfold fbind, requests_get, lift.
  destruct (net url) as [cls msg | status reason b]; [reflexivity |].
  destruct (response_json (status, reason, b)) as [data | e]; reflexivity.
Qed.

Lemma catalog_get_Ok (url key : string) (net : network) (v : json) :
  match net url with
  | Failed cls msg => Raise (RequestException cls msg)
  | Response status reason b =>
      (data <- response_json (status, reason, b) ;; Py.getitem data key)%result
  end = Ok v
  <-> exists (status : Z) (reason : string) (data : json),
      net url = Response status reason (JsonBody data)
      /\ Py.getitem data key = Ok v.
Proof.
  split.
  - destruct (net url) as [cls msg | status reason [data | msg]];
      try discriminate.
    intros H. exists status, reason, data. auto.
  - intros (status & reason & data & -> & H). exact H.
Qed.

(** X17: [fetch_events(count)] issues one GET, to the listing URL whose
    filter is [true] or [false] in lower case and whose [$top] is the text
    of [count]; it returns the value under ["value"] of any reply whose body
    is JSON holding that key, and never looks at the status: a 500 reply
    with such a body is taken as the listing. *)
Theorem fetch_events_ignores_status :
  forall (is_past_events : bool) (count : json) (net : network),
    let url :=
      "https://www.advancedeventsystems.com/api/landing/events?$count=true&$filter=isPastEvent+eq+"
      ++ (if is_past_events then "true" else "false")
      ++ "&$format=json&$orderby=startDate,name&$top=" ++ Py.str count in
    fst (fetch_events is_past_events count net) = [url]
    /\ forall v : json,
        snd (fetch_events is_past_events count net) = Ok v
        <-> exists (status : Z) (reason : string) (data : json),
            net url = Response status reason (JsonBody data)
            /\ Py.getitem data "value" = Ok v.
Proof.
  intros is_past_events count net url.
  unfold fetch_events. rewrite catalog_get. cbn [fst snd].
  assert (Hurl :
    "https://www.advancedeventsystems.com/api/landing/events?$count=true&$filter=isPastEvent+eq+"
    ++ Str.lower (Py.str (JBool is_past_events))
    ++ "&$format=json&$orderby=startDate,name&$top=" ++ Py.str count = url).
  { destruct is_past_events; reflexivity. }
  rewrite Hurl. split; [reflexivity |].
  intros v. apply catalog_get_Ok.
Qed.

(** X18: [fetch_total_counts()] issues the very request that
    [fetch_events(100)] issues (it asks for 100 rows, not for none), and
    returns the value under ["@odata.count"] of any reply whose body is JSON
    holding that key, whatever the status and whatever the type of the
    value. *)
Theorem fetch_total_counts_is_listing_of_100 :
  forall (is_past_events : bool) (net : network),
    exists url : string,
      fst (fetch_total_counts is_past_events net) = [url]
      /\ fst (fetch_events is_past_events (JInt 100) net) = [url]
      /\ forall v : json,
          snd (fetch_total_counts is_past_events net) = Ok v
          <-> exists (status : Z) (reason : string) (data : json),
              net url = Response status reason (JsonBody data)
              /\ Py.getitem data "@odata.count" = Ok v.
Proof.
  intros is_past_events net.
  unfold fetch_total_counts, fetch_events. rewrite !catalog_get.
  cbn [fst snd]. eexists. split; [reflexivity |].
  split; [destruct is_past_events; reflexivity |].
  intros v. apply catalog_get_Ok.
Qed.


Lemma fbind_Raise_run {A B : Type} (m : Fetch A) (k : A -> Fetch B)
  (net : network) (t : list string) (e : exn) :
  m net = (t, Raise e) -> fbind m k net = (t, Raise e).
Proof. unfold fbind. intros ->. reflexivity. Qed.

(** X19: when the count fetch fails (the transport raises, the body is not
    JSON, or it has no ["@odata.count"]), [run] raises that very exception
    after that one request: neither the listing nor any detail endpoint is
    requested. *)
Theorem run_stops_when_count_fails :
  forall (is_past_events : bool) (net : network)
         (world_d world_e : nat -> network)
         (done_d : list (future (list DivisionRecord.t))
                   -> list (future (list DivisionRecord.t)))
         (done_e : list (future EventRecord.t) -> list (future EventRecord.t))
         (e : exn),
    snd (fetch_total_counts is_past_events net) = Raise e ->
    run is_past_events net world_d world_e done_d done_e
    = (fst (fetch_total_counts is_past_events net), Raise e)
    /\ List.length (fst (fetch_total_counts is_past_events net)) = 1.
Proof.
  intros is_past_events net world_d world_e done_d done_e e He.
  destruct (fetch_total_counts is_past_events net) as [t r] eqn:Hc.
  cbn [fst snd] in *. subst r. split.
  - unfold run, fetch_catalog.
    rewrite (fbind_Raise_run _ _ _ _ _ Hc). reflexivity.
  - unfold fetch_total_counts in Hc. rewrite catalog_get in Hc.
    injection Hc as <- _. reflexivity.
Qed.

Lemma run_stops_when_count_fails_witness :
  run false net_ok (fun _ => net_ok) (fun _ => net_ok) (@rev _) (@rev _)
  = (["https://www.advancedeventsystems.com/api/landing/events?$count=true&$filter=isPastEvent+eq+false&$format=json&$orderby=startDate,name&$top=100"],
     Raise (KeyError "@odata.count")).
Proof.
  exact (proj1 (run_stops_when_count_fails false net_ok (fun _ => net_ok)
                  (fun _ => net_ok) (@rev _) (@rev _)
                  (KeyError "@odata.count") eq_refl)).
Defined.







(** ** Complete addresses and the attribution of errors *)

Lemma rstrip_by_kept (p : ascii -> bool) (s : string) (c : ascii) :
  Str.last s = Some c -> p c = false -> Str.rstrip_by p s = s.
Proof.
  intros Hlast Hc. induction s as [| a s IH]; [reflexivity |].
  cbn [Str.rstrip_by]. destruct s as [| b s].
  - simpl in Hlast. injection Hlast as ->. simpl. rewrite Hc. reflexivity.
  - rewrite (IH Hlast). reflexivity.
Qed.

Lemma last_append (a b : string) (c : ascii) :
  Str.last b = Some c -> Str.last (a ++ b) = Some c.
Proof.
  intros Hb. induction a as [| x a IH]; [exact Hb |].
  simpl. rewrite IH. destruct (a ++ b); [discriminate IH | reflexivity].
Qed.

(** X21: an address whose four parts are strings, with a street line that
    does not start with whitespace and a zip that ends neither in whitespace
    nor in a comma, is rendered in full and unchanged: the street line, a
    line break, then [city, state zip]. *)
Theorem address_of_complete_parts :
  forall (fields : list (string * json)) (rec : EventRecord.t)
         (line1 city state_abbr zip_code : string) (c1 c2 : ascii),
    parse_event_api (JObj fields) = Ok rec ->
    Py.field (Py.dict_get fields "address") "line1" = JStr line1 ->
    Py.field (Py.dict_get fields "address") "city" = JStr city ->
    Py.field (Py.field (Py.dict_get fields "address") "state") "abbreviation"
    = JStr state_abbr ->
    Py.field (Py.dict_get fields "address") "zip" = JStr zip_code ->
    first_char line1 = Some c1 -> Str.isspace c1 = false ->
    Str.last zip_code = Some c2 -> Str.isspace c2 = false -> c2 <> ","%char ->
    EventRecord.address rec
    = line1 ++ String Py.newline "" ++ city ++ ", " ++ state_abbr ++ " "
      ++ zip_code.
Proof.
  intros fields rec line1 city state_abbr zip_code c1 c2 Hrec
    H1 H2 H3 H4 Hf Hc1 Hl Hc2 Hcomma.
  apply parse_event_api_inv in Hrec
    as (fields' & start_date & end_date & Heq & _ & _ & _ & ->).
  injection Heq as <-. cbn [EventRecord.address]. rewrite H1, H2, H3, H4.
  assert (Hor : forall s : string, Py.or (JStr s) empty = JStr s).
  { intros [| a s]; reflexivity. }
  rewrite !Hor. unfold format_address. cbn [Py.str].
  set (text := line1 ++ String Py.newline "" ++ city ++ ", " ++ state_abbr
               ++ " " ++ zip_code).
  assert (Hlast : Str.last text = Some c2).
  { unfold text. repeat apply last_append. exact Hl. }
  assert (Hstrip : Str.strip text = text).
  { unfold Str.strip.
    assert (Hl1 : Str.lstrip_by Str.isspace text = text).
    { unfold text. destruct line1 as [| a l]; [discriminate Hf |].
      simpl in Hf. injection Hf as ->. simpl. rewrite Hc1. reflexivity. }
    rewrite Hl1. apply (rstrip_by_kept _ _ _ Hlast Hc2). }
  rewrite Hstrip. unfold Str.rstrip.
  apply (rstrip_by_kept _ _ _ Hlast). simpl.
  destruct (Ascii.eqb_spec c2 ","); [contradiction |].
  destruct (Ascii.eqb_spec c2 " "); [subst; discriminate Hc2 | reflexivity].
Qed.

Lemma address_of_complete_parts_witness :
  exists rec : EventRecord.t,
    parse_event_api ex_address_payload = Ok rec
    /\ EventRecord.address rec
       = "123 Main" ++ String Py.newline "" ++ "Springfield" ++ ", " ++ "IL"
         ++ " " ++ "62704".
Proof.
  eexists. split; [reflexivity |].
  exact (address_of_complete_parts [("address", ex_address)] _
           "123 Main" "Springfield" "IL" "62704" "1" "4"
           eq_refl eq_refl eq_refl eq_refl eq_refl eq_refl eq_refl eq_refl
           eq_refl ltac:(discriminate)).
Defined.

Lemma submit_all_In {A : Type} (fn : json -> Fetch A) (world : nat -> network)
  (events : list json) :
  forall (first : nat) (fut : future A),
    In fut (submit_all fn world first events) ->
    exists (i : nat) (item : json),
      nth_error events i = Some item
      /\ fut = submit fn (world (first + i)) item.
Proof.
  induction events as [| event rest IH]; intros first fut; cbn [submit_all].
  - intros [].
  - intros [<- | Hin].
    + exists 0, event. rewrite Nat.add_0_r. split; reflexivity.
    + destruct (IH (S first) fut Hin) as (i & item & Hnth & ->).
      exists (S i), item. rewrite Nat.add_succ_r. split; [exact Hnth | reflexivity].
Qed.

Lemma errors_of_In {A : Type} (l : list (future A)) (er : ErrorRecord.t) :
  In er (errors_of l) ->
  exists (fut : future A) (e : exn),
    In fut l /\ fut_result fut = Raise e
    /\ er = error_record e (fut_item fut).
Proof.
  unfold errors_of. intros H. apply in_flat_map in H as (fut & Hin & Her).
  destruct (fut_result fut) as [a | e] eqn:E; [destruct Her |].
  destruct Her as [<- | []]. exists fut, e. auto.
Qed.

(** X22: every row of [event_errors] belongs to one catalog item whose own
    event fetch raised: its message is the [repr] of that exception and its
    [item] text is [json.dumps] of that item cut to 500 characters.  No
    error is recorded against an item whose fetch returned. *)
Theorem event_errors_are_attributed :
  forall (world : nat -> network) (events : list json)
         (completed : list (future EventRecord.t)) (er : ErrorRecord.t),
    Permutation completed (submit_all _fetch_one_event world 0 events) ->
    In er (snd (event_phase completed)) ->
    exists (i : nat) (item : json) (e : exn),
      nth_error events i = Some item
      /\ snd (_fetch_one_event item (world i)) = Raise e
      /\ ErrorRecord.message er = Py.repr_exn e
      /\ ErrorRecord.item er = Str.take 500 (Json.dumps item)
      /\ ErrorRecord.where_ er = "detail".
Proof.
  intros world events completed er Hperm Hin.
  rewrite event_phase_eq in Hin. cbn [snd] in Hin.
  apply errors_of_In in Hin as (fut & e & Hfut & Hres & ->).
  apply (Permutation_in _ Hperm) in Hfut.
  apply submit_all_In in Hfut as (i & item & Hnth & ->).
  exists i, item, e. unfold submit in *. cbn [Nat.add] in *.
  destruct (_fetch_one_event item (world i)) as [reqs r].
  cbn [fut_result fut_item snd] in *. subst r.
  repeat split. exact Hnth.
Qed.

Lemma event_errors_are_attributed_witness :
  exists (i : nat) (item : json) (e : exn),
    nth_error [item_event 1; item_event 2; item_scheduler] i = Some item
    /\ snd (_fetch_one_event item (world_flaky i)) = Raise e
    /\ Py.repr_exn e = "ConnectTimeout('timed out')".
Proof.
  destruct (event_errors_are_attributed world_flaky
              [item_event 1; item_event 2; item_scheduler]
              (rev (submit_all _fetch_one_event world_flaky 0
                      [item_event 1; item_event 2; item_scheduler]))
              (ErrorRecord.mk "detail" "ConnectTimeout('timed out')"
                 (Str.take 500 (Json.dumps (item_event 2))))
              (Permutation_sym (Permutation_rev _))
              (or_introl eq_refl))
    as (i & item & e & Hnth & Hres & Hmsg & _).
  exists i, item, e. repeat split; [exact Hnth | exact Hres |].
  symmetry. exact Hmsg.
Defined.
